(** * Mantra AI: the recommendation, alignment and feedback core

    A shallow embedding of the pure decision logic of the "AI module":
    [recommend.py] (the [EmpatheticRecommender] class, [get_personalized_feedback],
    [generate_encouragement]), the label bridge [map_facial_to_text_emotion] of
    [emotion_detector.py], [combine_emotion_and_sentiment] of [text_sentiment.py]
    and the combined-insights step of [comprehensive_analysis] in [main.py].

    Conventions of the embedding.
    - A Python [str] is a Rocq [string]; the classifier vocabularies are ASCII and
      [Py.lower] is [str.lower] on ASCII letters (other characters are kept).
    - A Python [float] (or [int]) score is its exact rational value in [Q]; the
      decimal literals of the source are read as decimals.  NaN and the
      infinities have no image in [Q].
    - A [dict] literal is an association list in source order; [d.get(k, v)] is
      [Py.get_default], [d[k]] is [Py.getitem] and may raise [KeyError].
    - The module [random] is an explicit source of draws threaded through the
      monad [Py.M], which also carries the exceptions the code can raise. *)

(** The development also covers the learning-mode rule of [recommend.py], the
    post-processing of [TextSentimentAnalyzer.analyze] and
    [FacialEmotionDetector.predict_emotion], [analyze_text] of [main.py], and
    the backend: the recommendation service, the wellness router, the keyword
    sentiment service and [clean_text].  There the classifier outputs (the
    pipeline result, the network probabilities, the detected boxes) are
    inputs, and the awaited pauses of the backend are left out. *)

From Stdlib Require Import String Ascii List QArith Bool Arith Lia Lqa.
From Stdlib Require Import Sorted Permutation.
Import ListNotations.
Open Scope string_scope.

(** ** Python primitives used by the source *)

Module Py.

Definition float := Q.

(** [x >= y] and [x < y] on numbers. *)
Definition ge (x y : float) : bool := Qle_bool y x.
Definition lt (x y : float) : bool := negb (Qle_bool y x).

(** [str.lower()]. *)
Definition lower_char (c : ascii) : ascii :=
  let n := nat_of_ascii c in
  if (65 <=? n)%nat && (n <=? 90)%nat then ascii_of_nat (n + 32) else c.

Fixpoint lower (s : string) : string :=
  match s with
  | EmptyString => EmptyString
  | String c t => String (lower_char c) (lower t)
  end.

(** [needle in hay] on strings: [needle] occurs as a substring of [hay]. *)
Fixpoint contains (needle hay : string) : bool :=
  String.prefix needle hay
  || match hay with
     | EmptyString => false
     | String _ t => contains needle t
     end.

(** [x in xs] for a set or list literal of strings. *)
Definition str_in (x : string) (xs : list string) : bool :=
  existsb (String.eqb x) xs.

(** Dictionaries, keyed by strings or by pairs of strings. *)
Definition dict (V : Type) := list (string * V).
Definition dict2 (V : Type) := list ((string * string) * V).

Fixpoint get {V} (d : dict V) (k : string) : option V :=
  match d with
  | [] => None
  | (k', v) :: d' => if String.eqb k k' then Some v else get d' k
  end.

Definition pair_eqb (a b : string * string) : bool :=
  String.eqb (fst a) (fst b) && String.eqb (snd a) (snd b).

Fixpoint get2 {V} (d : dict2 V) (k : string * string) : option V :=
  match d with
  | [] => None
  | (k', v) :: d' => if pair_eqb k k' then Some v else get2 d' k
  end.

(** [k in d]. *)
Definition mem {V} (d : dict V) (k : string) : bool :=
  match get d k with Some _ => true | None => false end.

(** [d.get(k, default)]. *)
Definition get_default {V} (d : dict V) (k : string) (default : V) : V :=
  match get d k with Some v => v | None => default end.

Definition keys {V} (d : dict V) : list string := map fst d.

(** [xs[:n]]. *)
Definition slice_to {A} (n : nat) (xs : list A) : list A := firstn n xs.

(** Exceptions and results. *)
Inductive exn : Type :=
| IndexError
| ValueError
| KeyError (k : string).

Inductive result (A : Type) : Type :=
| Ok (a : A)
| Raise (e : exn).
Arguments Ok {A} a.
Arguments Raise {A} e.

(** The random source: the sequence of raw draws still to be consumed
    (an exhausted source keeps drawing 0). *)
Definition rng := list nat.

Definition M (A : Type) : Type := rng -> result (A * rng).

Definition ret {A} (a : A) : M A := fun g => Ok (a, g).

Definition bind {A B} (m : M A) (f : A -> M B) : M B :=
  fun g =>
    match m g with
    | Ok (a, g') => f a g'
    | Raise e => Raise e
    end.

Definition raise {A} (e : exn) : M A := fun _ => Raise e.

(** [d[k]]. *)
Definition getitem {V} (d : dict V) (k : string) : M V :=
  match get d k with Some v => ret v | None => raise (KeyError k) end.

(** A uniform draw below [n]. *)
Definition randbelow (n : nat) : M nat :=
  fun g =>
    match g with
    | [] => Ok (0%nat, [])
    | r :: g' => Ok ((r mod n)%nat, g')
    end.

(** [random.choice(seq)]. *)
Definition choice {A} (seq : list A) : M A :=
  match seq with
  | [] => raise IndexError
  | d :: _ => bind (randbelow (length seq)) (fun i => ret (nth i seq d))
  end.

(** Remove the element at position [i]. *)
Fixpoint remove_nth {A} (i : nat) (xs : list A) : list A :=
  match xs, i with
  | [], _ => []
  | _ :: t, O => t
  | x :: t, S j => x :: remove_nth j t
  end.

(** [k] draws without replacement, in draw order. *)
Fixpoint sample_from {A} (k : nat) (pool : list A) : M (list A) :=
  match k with
  | O => ret []
  | S k' =>
      match pool with
      | [] => raise ValueError
      | d :: _ =>
          bind (randbelow (length pool)) (fun i =>
          bind (sample_from k' (remove_nth i pool)) (fun xs =>
          ret (nth i pool d :: xs)))
      end
  end.

(** [random.sample(population, k)]. *)
Definition sample {A} (population : list A) (k : nat) : M (list A) :=
  if (length population <? k)%nat then raise ValueError
  else sample_from k population.

(** [xs[i]] for a position counted from the front. *)
Definition getindex {A} (xs : list A) (i : nat) : M A :=
  match nth_error xs i with
  | Some x => ret x
  | None => raise IndexError
  end.

(** A comprehension or a loop that builds one result per element, in order. *)
Fixpoint mapM {A B} (f : A -> M B) (xs : list A) : M (list B) :=
  match xs with
  | [] => ret []
  | x :: t => bind (f x) (fun y => bind (mapM f t) (fun ys => ret (y :: ys)))
  end.

(** [max(xs, key=key)] and [numpy.argmax]: the first maximal element, or its
    position; both raise [ValueError] on an empty argument. *)
Fixpoint max_from {A} (key : A -> float) (best : A) (xs : list A) : A :=
  match xs with
  | [] => best
  | x :: t => if lt (key best) (key x) then max_from key x t
              else max_from key best t
  end.

Definition max_by {A} (key : A -> float) (xs : list A) : M A :=
  match xs with
  | [] => raise ValueError
  | x :: t => ret (max_from key x t)
  end.

Fixpoint argmax_from (best_i : nat) (best : float) (i : nat) (xs : list float)
    : nat :=
  match xs with
  | [] => best_i
  | x :: t => if lt best x then argmax_from i x (S i) t
              else argmax_from best_i best (S i) t
  end.

Definition argmax (xs : list float) : M nat :=
  match xs with
  | [] => raise ValueError
  | x :: t => ret (argmax_from 0 x 1 t)
  end.

(** [sorted(xs, key=key, reverse=True)]: descending and stable, elements of
    equal key keeping their order. *)
Fixpoint insert_desc {A} (key : A -> float) (x : A) (sorted : list A) : list A :=
  match sorted with
  | [] => [x]
  | y :: t => if lt (key x) (key y) then y :: insert_desc key x t
              else x :: y :: t
  end.

Definition sorted_desc {A} (key : A -> float) (xs : list A) : list A :=
  fold_right (insert_desc key) [] xs.

(** [str.isspace] on one character and [str.strip()]: the ASCII whitespace is
    tab to carriage return, the four separators 28 to 31, and the space. *)
Definition is_space (c : ascii) : bool :=
  let n := nat_of_ascii c in
  ((9 <=? n)%nat && (n <=? 13)%nat) || ((28 <=? n)%nat && (n <=? 32)%nat).

Fixpoint lstrip (s : string) : string :=
  match s with
  | EmptyString => EmptyString
  | String c t => if is_space c then lstrip t else s
  end.

Fixpoint rstrip (s : string) : string :=
  match s with
  | EmptyString => EmptyString
  | String c t =>
      match rstrip t with
      | EmptyString => if is_space c then EmptyString else String c EmptyString
      | r => String c r
      end
  end.

Definition strip (s : string) : string := rstrip (lstrip s).

(** [any(w in text for w in words)]. *)
Definition any_in (words : list string) (text : string) : bool :=
  existsb (fun w => contains w text) words.

End Py.

Import Py.

Declare Scope py_scope.
Delimit Scope py_scope with py.
Notation "x <- m ;; k" := (bind m (fun x => k))
  (at level 61, m at next level, right associativity) : py_scope.
Open Scope py_scope.

(** ** emotion_detector.py *)

Module EmotionDetector.

(** The FER2013 labels of [FacialEmotionDetector.emotion_labels]. *)
Definition emotion_labels : list string :=
  [ "Angry"; "Disgust"; "Fear"; "Happy"; "Sad"; "Surprise"; "Neutral" ].

Definition mapping : dict string :=
  [ ("Happy", "joy");
    ("Sad", "sadness");
    ("Angry", "anger");
    ("Fear", "fear");
    ("Surprise", "surprise");
    ("Disgust", "disgust");
    ("Neutral", "neutral") ].

Definition map_facial_to_text_emotion (facial_emotion : string) : string :=
  get_default mapping facial_emotion "neutral".

(** *** [FacialEmotionDetector.predict_emotion] and [analyze_image]

    The detector is initialised; the output of the network for a face (the
    row [model.predict(...)[0]]) and the boxes of the face detector are
    inputs. *)

Module Prediction.
Record emotion_probability : Type := mk_emotion_probability
  { emotion : string;
    probability : float }.
Record prediction : Type := mk_prediction
  { dominant_emotion : string;
    confidence : float;
    all_emotions : list emotion_probability }.
End Prediction.
Export Prediction(emotion_probability, mk_emotion_probability,
                  prediction, mk_prediction).

Definition predict_emotion (predictions : list float) : M prediction :=
  max_index <- argmax predictions ;;
  emotion <- getindex emotion_labels max_index ;;
  confidence <- getindex predictions max_index ;;
  all_emotions <-
    mapM (fun i =>
            label <- getindex emotion_labels i ;;
            p <- getindex predictions i ;;
            ret (mk_emotion_probability label p))
         (seq 0 (length emotion_labels)) ;;
  let all_emotions := sorted_desc Prediction.probability all_emotions in
  ret {| Prediction.dominant_emotion := emotion;
         Prediction.confidence := confidence;
         Prediction.all_emotions := all_emotions |}.

Module Analysis.
Record bbox : Type := mk_bbox { x : Z; y : Z; width : Z; height : Z }.
Record face_result : Type := mk_face_result
  { box : bbox;
    emotion : prediction }.
Record analysis : Type := mk_analysis
  { faces_detected : nat;
    faces : list face_result }.
End Analysis.
Export Analysis(bbox, mk_bbox, face_result, mk_face_result,
                analysis, mk_analysis).

(** [faces] pairs each detected box with the network output on its region. *)
Definition analyze_image (faces : list (bbox * list float)) : M analysis :=
  results <-
    mapM (fun face =>
            emotion_data <- predict_emotion (snd face) ;;
            ret {| Analysis.box := fst face;
                   Analysis.emotion := emotion_data |})
         faces ;;
  ret {| Analysis.faces_detected := length faces;
         Analysis.faces := results |}.

End EmotionDetector.

(** ** The readings exchanged between the modules

    The analysis results are dictionaries read with [.get(key, default)]; a key
    that is absent is [None]. *)

Module EmotionData.
Record emotion_data : Type := mk_emotion_data
  { dominant_emotion : option string;
    confidence : option float;
    valence : option float }.
Definition no_emotion : emotion_data := mk_emotion_data None None None.
End EmotionData.

Module SentimentData.
Record sentiment_data : Type := mk_sentiment_data
  { sentiment : option string;
    confidence : option float }.
Definition no_sentiment : sentiment_data := mk_sentiment_data None None.
End SentimentData.

Module MindScoreData.
(** The value stored under ['mind_score'] of a stress analysis: itself a
    dictionary, of which only the key ['mind_score'] is read. *)
Record mind_score_data : Type := mk_mind_score_data
  { mind_score : option float }.
Definition no_mind_score : mind_score_data := mk_mind_score_data None.
End MindScoreData.

Module StressData.
Record stress_data : Type := mk_stress_data
  { stress_level : option string;
    mind_score : option MindScoreData.mind_score_data }.
Definition no_stress : stress_data := mk_stress_data None None.
End StressData.

Export EmotionData(emotion_data, mk_emotion_data, no_emotion).
Export SentimentData(sentiment_data, mk_sentiment_data, no_sentiment).
Export MindScoreData(mind_score_data, mk_mind_score_data, no_mind_score).
Export StressData(stress_data, mk_stress_data, no_stress).

(** [d.get(key, default)] on a reading. *)
Definition or_default {A} (o : option A) (default : A) : A :=
  match o with Some a => a | None => default end.

(** ** text_sentiment.py *)

Module TextSentiment.

Definition positive_emotions : list string := [ "joy"; "surprise"; "love" ].
Definition negative_emotions : list string :=
  [ "sadness"; "anger"; "fear"; "disgust" ].

Definition interpret_combined_analysis
    (emotion sentiment : string) (aligned : bool) : string :=
  if aligned then
    "Your " ++ emotion ++ " emotion aligns with " ++ sentiment
      ++ " sentiment, indicating a clear emotional state."
  else
    "There's a complexity in your emotional state - feeling " ++ emotion
      ++ " with " ++ sentiment ++ " undertones.".

(** The alignment test of [combine_emotion_and_sentiment]. *)
Definition aligned_of (emotion sentiment : string) : bool :=
  if str_in emotion positive_emotions && contains "positive" (lower sentiment)
  then true
  else if str_in emotion negative_emotions
          && contains "negative" (lower sentiment)
  then true
  else if String.eqb emotion "neutral" && contains "neutral" (lower sentiment)
  then true
  else false.

(** The signed polarity of a sentiment label, scaled by its confidence. *)
Definition sentiment_polarity_of
    (sentiment : string) (sentiment_confidence : float) : float :=
  (if contains "positive" (lower sentiment) then 1
   else if contains "negative" (lower sentiment) then -1 else 0)
  * sentiment_confidence.

Module Combined.
Record label : Type := mk_label
  { label_of : string; confidence_of : float }.
(** [overall_mood_exact] is the mood before [round(_, 3)]. *)
Record combined : Type := mk_combined
  { emotion : label;
    sentiment : label;
    aligned : bool;
    sentiment_polarity : float;
    overall_mood_exact : float;
    interpretation : string }.
End Combined.

Definition combine_emotion_and_sentiment
    (emotion_data : emotion_data) (sentiment_data : sentiment_data)
    : Combined.combined :=
  let emotion := or_default (EmotionData.dominant_emotion emotion_data) "neutral" in
  let emotion_confidence := or_default (EmotionData.confidence emotion_data) 0.0 in
  let sentiment := or_default (SentimentData.sentiment sentiment_data) "neutral" in
  let sentiment_confidence :=
    or_default (SentimentData.confidence sentiment_data) 0.0 in
  let aligned := aligned_of emotion sentiment in
  let emotion_valence := or_default (EmotionData.valence emotion_data) 0.0 in
  let sentiment_polarity := sentiment_polarity_of sentiment sentiment_confidence in
  let overall_mood := emotion_valence * 0.6 + sentiment_polarity * 0.4 in
  {| Combined.emotion := Combined.mk_label emotion emotion_confidence;
     Combined.sentiment := Combined.mk_label sentiment sentiment_confidence;
     Combined.aligned := aligned;
     Combined.sentiment_polarity := sentiment_polarity;
     Combined.overall_mood_exact := overall_mood;
     Combined.interpretation :=
       interpret_combined_analysis emotion sentiment aligned |}.

(** *** [TextSentimentAnalyzer.analyze] and [get_sentiment_polarity]

    The analyzer is loaded, as [get_sentiment_analyzer] leaves it.  The
    transformer pipeline is an input: [pipeline text] is the list it returns,
    whose first element is either the list of all label scores or one label
    score.  [round3] stands for [round(_, 3)] on floats. *)

Module Analyzed.
Record label_score : Type := mk_label_score
  { label : string;
    score : float }.
Inductive pipeline_entry : Type :=
| AllLabels (items : list label_score)
| OneLabel (item : label_score).
Record analyzed : Type := mk_analyzed
  { sentiment : string;
    confidence : float;
    scores : dict float }.
End Analyzed.
Export Analyzed(label_score, mk_label_score, pipeline_entry, AllLabels,
                OneLabel, analyzed, mk_analyzed).

(** [d[k] = v] on a dictionary under construction. *)
Fixpoint setitem {V} (d : dict V) (k : string) (v : V) : dict V :=
  match d with
  | [] => [(k, v)]
  | (k', v') :: d' =>
      if String.eqb k k' then (k', v) :: d' else (k', v') :: setitem d' k v
  end.

(** [{item['label']: item['score'] for item in items}]. *)
Definition scores_of (items : list label_score) : dict float :=
  fold_left (fun d item => setitem d (Analyzed.label item) (Analyzed.score item))
            items [].

Definition analyze
    (round3 : float -> float) (pipeline : string -> list pipeline_entry)
    (text : string) : M analyzed :=
  if String.eqb text "" || String.eqb (strip text) "" then
    ret {| Analyzed.sentiment := "neutral";
           Analyzed.confidence := 0.0;
           Analyzed.scores := [] |}
  else
    let results := pipeline text in
    first <- getindex results 0 ;;
    found <-
      match first with
      | AllLabels items =>
          let scores := scores_of items in
          dominant <- max_by Analyzed.score items ;;
          ret (dominant, scores)
      | OneLabel item =>
          ret (item, [(Analyzed.label item, Analyzed.score item)])
      end ;;
    let dominant := fst found in
    let scores := snd found in
    ret {| Analyzed.sentiment := lower (Analyzed.label dominant);
           Analyzed.confidence := round3 (Analyzed.score dominant);
           Analyzed.scores := map (fun kv => (fst kv, round3 (snd kv))) scores |}.

Definition get_sentiment_polarity
    (round3 : float -> float) (pipeline : string -> list pipeline_entry)
    (text : string) : M float :=
  result <- analyze round3 pipeline text ;;
  let sentiment := Analyzed.sentiment result in
  let confidence := Analyzed.confidence result in
  if contains "positive" (lower sentiment) then ret confidence
  else if contains "negative" (lower sentiment) then ret (- confidence)
  else ret 0.0.

(** The result of [analyze] as [combine_emotion_and_sentiment] reads it. *)
Definition sentiment_data_of (result : analyzed) : sentiment_data :=
  mk_sentiment_data (Some (Analyzed.sentiment result))
                    (Some (Analyzed.confidence result)).

End TextSentiment.

(** ** recommend.py *)

Module Recommend.

(** One entry of the emotion response table: three template pools. *)
Record emotion_entry : Type := mk_entry
  { acknowledgment : list string;
    learning_tip : list string;
    activity : list string }.

Definition _load_emotion_responses : dict emotion_entry :=
[
("joy",
 {| acknowledgment :=
      [ "I'm glad to see you're in such a positive mood! 😊";
        "Your enthusiasm is wonderful! ✨";
        "Love seeing your positive energy! 🌟" ];
    learning_tip :=
      [ "This is a great time to tackle challenging topics!";
        "Your positive mindset will help you learn faster.";
        "Channel this energy into creative problem-solving!" ];
    activity :=
      [ "Try learning something new and exciting";
        "Work on a project you're passionate about";
        "Share your knowledge with others" ] |});
("sadness",
 {| acknowledgment :=
      [ "I notice you might be feeling down. That's okay. 💙";
        "It's alright to feel sad sometimes. I'm here for you.";
        "Your feelings are valid. Take your time. 🫂" ];
    learning_tip :=
      [ "Start with something simple and rewarding today.";
        "Small progress is still progress. Be gentle with yourself.";
        "Focus on topics that usually bring you comfort." ];
    activity :=
      [ "Take a break and do something you enjoy";
        "Connect with a friend or loved one";
        "Practice self-compassion exercises" ] |});
("anger",
 {| acknowledgment :=
      [ "I sense some frustration. Let's work through this together.";
        "It's okay to feel angry. Let's channel it productively.";
        "Your feelings matter. Let's find a constructive outlet." ];
    learning_tip :=
      [ "Take a short break before continuing your studies.";
        "Physical activity might help clear your mind first.";
        "Break down complex problems into manageable steps." ];
    activity :=
      [ "Try a quick breathing exercise (4-7-8 technique)";
        "Go for a brief walk or do some stretches";
        "Write down what's bothering you to process it" ] |});
("fear",
 {| acknowledgment :=
      [ "I understand you might be feeling anxious or worried.";
        "Fear is natural. Let's take this step by step. 🤝";
        "You're not alone in feeling this way." ];
    learning_tip :=
      [ "Start with familiar topics to build confidence.";
        "Break your goals into very small, achievable steps.";
        "Remember past challenges you've successfully overcome." ];
    activity :=
      [ "Practice grounding techniques (5-4-3-2-1 method)";
        "List three things you've accomplished recently";
        "Reach out to your support network" ] |});
("surprise",
 {| acknowledgment :=
      [ "Something unexpected? I'm here to help! ⚡";
        "Surprises can be great learning opportunities!";
        "Embrace the unexpected! 🎉" ];
    learning_tip :=
      [ "This is perfect for exploring new perspectives!";
        "Use your curiosity to dive deeper into topics.";
        "Unexpected moments often lead to breakthroughs." ];
    activity :=
      [ "Explore a related topic you haven't considered";
        "Ask 'why' and 'what if' questions";
        "Document your discoveries" ] |});
("love",
 {| acknowledgment :=
      [ "Your warmth and positivity shine through! ❤️";
        "That's beautiful! Love is a powerful motivator.";
        "Your caring nature is wonderful! 💖" ];
    learning_tip :=
      [ "Your passion will fuel deep understanding.";
        "Connect your learning to what you care about.";
        "Share your enthusiasm with others!" ];
    activity :=
      [ "Mentor someone or share your knowledge";
        "Create something meaningful";
        "Express gratitude for your learning journey" ] |});
("neutral",
 {| acknowledgment :=
      [ "You seem calm and centered. Good place to start! 👍";
        "A neutral state is perfect for focused learning.";
        "Great mindset for tackling tasks!" ];
    learning_tip :=
      [ "This is ideal for complex problem-solving.";
        "Your focus will serve you well today.";
        "Maintain this balanced approach." ];
    activity :=
      [ "Dive into your most important tasks";
        "Practice deep work techniques";
        "Set clear, achievable goals" ] |});
("disgust",
 {| acknowledgment :=
      [ "Something doesn't feel right? Let's address it.";
        "I understand that reaction. Let's reframe this.";
        "Your instincts are telling you something." ];
    learning_tip :=
      [ "Sometimes resistance reveals important insights.";
        "Try approaching the topic from a different angle.";
        "Focus on why this matters in the bigger picture." ];
    activity :=
      [ "Take a brief pause to reset";
        "Find a more engaging resource on the topic";
        "Connect the material to your interests" ] |}) ].

Definition _load_learning_strategies : dict (list string) :=
[
("low_stress",
    [ "🎯 Set ambitious learning goals for today";
      "📚 Tackle that challenging concept you've been avoiding";
      "🧠 Practice active recall and spaced repetition";
      "🤝 Teach someone else what you're learning";
      "🔬 Experiment with advanced applications" ]);
("moderate_stress",
    [ "📝 Break your study session into 25-minute intervals (Pomodoro)";
      "🎵 Add background music or white noise if helpful";
      "✅ Focus on one topic at a time";
      "🔄 Review what you already know before new material";
      "💡 Use visual aids and diagrams to simplify concepts" ]);
("high_stress",
    [ "⏸️ Take a 10-minute break before continuing";
      "🌱 Start with the easiest task to build momentum";
      "📋 Make a simple checklist to reduce overwhelm";
      "🧘 Try a 2-minute mindfulness exercise";
      "👥 Consider studying with a supportive peer" ]);
("optimal_flow",
    [ "🌊 You're in the flow state - keep going!";
      "⚡ Channel this energy into your most important work";
      "🎨 This is perfect for creative problem-solving";
      "🚀 Push your boundaries while you're in this zone";
      "📈 Build on this momentum for maximum progress" ]) ].

Definition _load_motivational_quotes : list string :=
[ "Every expert was once a beginner. Keep going! 💪";
  "Progress, not perfection. You're doing great! 🌟";
  "Your brain is like a muscle - the more you use it, the stronger it gets! 🧠";
  "Mistakes are proof that you're trying. Keep learning! 📚";
  "The only way to do great work is to love what you do. 💙";
  "Small daily improvements lead to stunning results. ✨";
  "You are capable of amazing things! 🌈";
  "Learning is a journey, not a destination. Enjoy the process! 🛤️";
  "Believe in yourself. You've overcome challenges before! 💫";
  "Your potential is limitless. Keep pushing forward! 🚀" ].

(** The tables stored by [EmpatheticRecommender.__init__]. *)
Definition emotion_responses : dict emotion_entry := _load_emotion_responses.
Definition learning_strategies : dict (list string) := _load_learning_strategies.
Definition motivational_quotes : list string := _load_motivational_quotes.

Module Plan.
Record study_plan : Type := mk_study_plan
  { duration : string;
    approach : string;
    breaks : string;
    recommendation : string }.
End Plan.
Export Plan(study_plan, mk_study_plan).

(** The local table [plans] of [_generate_study_plan]. *)
Definition plans : dict2 study_plan :=
  [ (("joy", "low"),
     {| Plan.duration := "45-60 minutes";
        Plan.approach := "Intensive deep work";
        Plan.breaks := "Every 45 minutes";
        Plan.recommendation := "Perfect time for challenging material!" |});
    (("sadness", "high"),
     {| Plan.duration := "15-20 minutes";
        Plan.approach := "Gentle review of familiar topics";
        Plan.breaks := "Frequent, every 15 minutes";
        Plan.recommendation := "Be kind to yourself. Small steps count." |});
    (("anger", "high"),
     {| Plan.duration := "10 minutes after calming";
        Plan.approach := "Physical activity first, then study";
        Plan.breaks := "Take breaks when needed";
        Plan.recommendation := "Reset your mind before diving in." |});
    (("fear", "moderate"),
     {| Plan.duration := "25-30 minutes";
        Plan.approach := "Start with confidence-building review";
        Plan.breaks := "Every 25 minutes";
        Plan.recommendation := "Build momentum with what you know." |}) ].

(** The default moderate plan returned when the key is not in [plans]. *)
Definition default_plan : study_plan :=
  {| Plan.duration := "30-40 minutes";
     Plan.approach := "Balanced focus with regular breaks";
     Plan.breaks := "Every 30 minutes";
     Plan.recommendation := "Maintain a steady, sustainable pace." |}.

Definition _generate_study_plan (emotion stress_level : string) : study_plan :=
  let key := (emotion, stress_level) in
  match get2 plans key with
  | Some plan => plan
  | None => default_plan
  end.

Definition _get_confidence_note (confidence : float) : string :=
  if ge confidence 0.8 then
    "I'm very confident about this assessment."
  else if ge confidence 0.6 then
    "This assessment seems reliable."
  else if ge confidence 0.4 then
    "This is my best estimate - let me know if it feels off."
  else
    "I'm somewhat uncertain - please provide more context if needed.".

Module Response.
Record response : Type := mk_response
  { acknowledgment : string;
    learning_tip : string;
    suggested_activity : string;
    learning_strategies : list string;
    motivational_quote : string;
    study_plan : Plan.study_plan;
    confidence_note : string }.
End Response.
Export Response(response, mk_response).

(** [mind_score] is accepted and not used, as in the source. *)
Definition generate_response
    (emotion : string) (confidence : float) (stress_level : string)
    (mind_score : option float) : M response :=
  let emotion := lower emotion in
  neutral <- getitem emotion_responses "neutral" ;;
  let emotion_data := get_default emotion_responses emotion neutral in
  acknowledgment <- choice (acknowledgment emotion_data) ;;
  learning_tip <- choice (learning_tip emotion_data) ;;
  activity <- choice (activity emotion_data) ;;
  let strategy_key :=
    if negb (String.eqb stress_level "optimal")
    then stress_level ++ "_stress" else "optimal_flow" in
  moderate <- getitem learning_strategies "moderate_stress" ;;
  let strategies := get_default learning_strategies strategy_key moderate in
  selected_strategies <- sample strategies (Nat.min 3 (length strategies)) ;;
  quote <- choice motivational_quotes ;;
  let study_plan := _generate_study_plan emotion stress_level in
  ret {| Response.acknowledgment := acknowledgment;
         Response.learning_tip := learning_tip;
         Response.suggested_activity := activity;
         Response.learning_strategies := selected_strategies;
         Response.motivational_quote := quote;
         Response.study_plan := study_plan;
         Response.confidence_note := _get_confidence_note confidence |}.

(** The local table [emotion_wellness] of [generate_wellness_recommendations]. *)
Definition emotion_wellness : dict (list string) :=
  [ ("sadness", [ "🌞 Get some sunlight or bright light exposure";
                  "🎶 Listen to uplifting music" ]);
    ("anger", [ "🥊 Try physical exercise to release tension";
                "📝 Journal your thoughts" ]);
    ("fear", [ "🫂 Practice grounding techniques";
               "📖 Read something comforting" ]);
    ("joy", [ "📸 Capture this positive moment";
              "💝 Spread positivity to others" ]) ].

(** [stress_level] is accepted and not used, as in the source. *)
Definition generate_wellness_recommendations
    (mind_score : float) (emotion stress_level : string) : list string :=
  let recommendations : list string := [] in
  let recommendations :=
    if lt mind_score 40 then
      (recommendations ++
       [ "🆘 Consider taking a longer break (15-30 minutes)";
         "💬 Reach out to someone you trust";
         "🏥 If feelings persist, consider professional support";
         "🎯 Focus only on essential tasks today" ])%list
    else if lt mind_score 60 then
      (recommendations ++
       [ "🧘 Practice mindfulness or meditation";
         "💪 Light exercise can boost your mood";
         "📱 Limit screen time outside of necessary tasks";
         "😴 Ensure you're getting adequate sleep" ])%list
    else
      (recommendations ++
       [ "🌟 Great mental state! Use it wisely";
         "🎯 This is ideal for tackling big goals";
         "🤝 Help others who might be struggling";
         "📚 Invest in long-term learning projects" ])%list in
  let recommendations :=
    match get emotion_wellness emotion with
    | Some tips => (recommendations ++ tips)%list
    | None => recommendations
    end in
  slice_to 6 recommendations.

Definition generate_encouragement (mind_score : float) : string :=
  if ge mind_score 80 then
    "You're doing amazingly well! Keep up this fantastic momentum! 🌟"
  else if ge mind_score 60 then
    "You're on a good path! Stay consistent and you'll see great results! 💪"
  else if ge mind_score 40 then
    "You're making progress! Every step forward counts! 🌱"
  else
    "Be gentle with yourself. Tomorrow is a new opportunity! 💙".

Module Feedback.
Record empathetic_response : Type := mk_empathetic_response
  { acknowledgment : string;
    confidence_note : string }.
Record learning_guidance : Type := mk_learning_guidance
  { tip : string;
    strategies : list string;
    study_plan : Plan.study_plan }.
Record immediate_actions : Type := mk_immediate_actions
  { suggested_activity : string;
    wellness_recommendations : list string }.
Record motivation : Type := mk_motivation
  { quote : string;
    encouragement : string }.
Record feedback : Type := mk_feedback
  { empathetic : empathetic_response;
    guidance : learning_guidance;
    actions : immediate_actions;
    motivating : motivation }.
End Feedback.
Export Feedback(feedback, mk_feedback).

Definition get_personalized_feedback
    (emotion_data : emotion_data) (stress_data : stress_data) : M feedback :=
  let emotion := or_default (EmotionData.dominant_emotion emotion_data) "neutral" in
  let confidence := or_default (EmotionData.confidence emotion_data) 0.0 in
  let stress_level := or_default (StressData.stress_level stress_data) "moderate" in
  let mind_score :=
    or_default
      (MindScoreData.mind_score
         (or_default (StressData.mind_score stress_data) no_mind_score))
      50 in
  response <- generate_response emotion confidence stress_level (Some mind_score) ;;
  let wellness_recs :=
    generate_wellness_recommendations mind_score emotion stress_level in
  ret {| Feedback.empathetic :=
           {| Feedback.acknowledgment := Response.acknowledgment response;
              Feedback.confidence_note := Response.confidence_note response |};
         Feedback.guidance :=
           {| Feedback.tip := Response.learning_tip response;
              Feedback.strategies := Response.learning_strategies response;
              Feedback.study_plan := Response.study_plan response |};
         Feedback.actions :=
           {| Feedback.suggested_activity := Response.suggested_activity response;
              Feedback.wellness_recommendations := wellness_recs |};
         Feedback.motivating :=
           {| Feedback.quote := Response.motivational_quote response;
              Feedback.encouragement := generate_encouragement mind_score |} |}.

Definition get_learning_mode_recommendation
    (emotion stress_level : string) : string :=
  let high_energy_emotions := [ "joy"; "surprise"; "love" ] in
  let low_energy_emotions := [ "sadness"; "fear" ] in
  if str_in emotion high_energy_emotions && String.eqb stress_level "low" then
    "🚀 Intensive Mode: Tackle complex problems and new concepts"
  else if str_in emotion low_energy_emotions || String.eqb stress_level "high"
  then
    "🌱 Gentle Mode: Review familiar material and consolidate knowledge"
  else if String.eqb stress_level "moderate" then
    "⚖️ Balanced Mode: Mix of review and new learning with breaks"
  else
    "📚 Standard Mode: Regular study pace with periodic breaks".

End Recommend.

(** ** main.py: the combined-insights and recommendation steps of
    [comprehensive_analysis]

    The text and image analyses are produced by external classifiers and are
    inputs here; [None] is an input that was not supplied. *)

Module Main.

(** One detected face: the result of [FacialEmotionDetector.predict_emotion]. *)
Record face : Type := mk_face
  { facial_emotion : string;
    facial_confidence : float }.

Record image_analysis : Type := mk_image_analysis
  { faces_detected : nat;
    faces : list face }.

Record text_analysis : Type := mk_text_analysis
  { emotion_analysis : emotion_data;
    stress_analysis : stress_data }.

Module Insights.
Record combined_insights : Type := mk_combined_insights
  { alignment : string;
    interpretation : string }.
End Insights.
Export Insights(combined_insights, mk_combined_insights).

(** The comparison of the facial and the text label. *)
Definition alignment_of (facial_emotion text_emotion : string) : string :=
  if String.eqb (lower facial_emotion) (lower text_emotion)
  then "aligned" else "misaligned".

Definition insights_of (facial_emotion text_emotion : string)
    : combined_insights :=
  let alignment := alignment_of facial_emotion text_emotion in
  {| Insights.alignment := alignment;
     Insights.interpretation :=
       "Facial expression shows " ++ facial_emotion
         ++ " while text conveys " ++ text_emotion ++ ". "
         ++ "This "
         ++ (if String.eqb alignment "aligned"
             then "confirms" else "suggests complexity in")
         ++ " your emotional state." |}.

(** [xs[0]] and [d[key]] on a reading. *)
Definition first_item {A} (xs : list A) : M A :=
  match xs with
  | [] => raise IndexError
  | x :: _ => ret x
  end.

Definition required {A} (key : string) (o : option A) : M A :=
  match o with
  | Some a => ret a
  | None => raise (KeyError key)
  end.

Definition combined_insights_step
    (text : option text_analysis) (image : option image_analysis)
    : M (option combined_insights) :=
  match text, image with
  | Some text_result, Some image_result =>
      if (0 <? faces_detected image_result)%nat then
        face0 <- first_item (faces image_result) ;;
        let facial_emotion := facial_emotion face0 in
        text_emotion <-
          required "dominant_emotion"
            (EmotionData.dominant_emotion (emotion_analysis text_result)) ;;
        ret (Some (insights_of facial_emotion text_emotion))
      else ret None
  | _, _ => ret None
  end.

Module Results.
Record results : Type := mk_results
  { text_analysis : option Main.text_analysis;
    image_analysis : option Main.image_analysis;
    combined_insights : option Insights.combined_insights;
    recommendations : option Recommend.Feedback.feedback }.
End Results.
Export Results(results, mk_results).

Definition comprehensive_analysis
    (text : option text_analysis) (image : option image_analysis)
    : M results :=
  insights <- combined_insights_step text image ;;
  recommendations <-
    match text with
    | Some text_result =>
        feedback <-
          Recommend.get_personalized_feedback
            (emotion_analysis text_result) (stress_analysis text_result) ;;
        ret (Some feedback)
    | None => ret None
    end ;;
  ret {| Results.text_analysis := text;
         Results.image_analysis := image;
         Results.combined_insights := insights;
         Results.recommendations := recommendations |}.

(** *** The other endpoints of main.py *)

(** The image analysis as [comprehensive_analysis] reads it: of each face,
    the dominant emotion and its confidence. *)
Definition image_view (result : EmotionDetector.Analysis.analysis)
    : image_analysis :=
  {| faces_detected := EmotionDetector.Analysis.faces_detected result;
     faces :=
       map (fun f =>
              mk_face
                (EmotionDetector.Prediction.dominant_emotion
                   (EmotionDetector.Analysis.emotion f))
                (EmotionDetector.Prediction.confidence
                   (EmotionDetector.Analysis.emotion f)))
           (EmotionDetector.Analysis.faces result) |}.

Module TextResponse.
Record text_response : Type := mk_text_response
  { sentiment_analysis : option sentiment_data;
    combined_analysis : option TextSentiment.Combined.combined;
    recommendations : option Recommend.Feedback.feedback;
    learning_mode : option string }.
End TextResponse.
Export TextResponse(text_response, mk_text_response).

(** [analyze_text]: [result] is the wellness analysis of the text and
    [sentiment] the sentiment analysis, both computed by the classifiers;
    the two flags are those of the request. *)
Definition analyze_text
    (result : text_analysis) (sentiment : sentiment_data)
    (include_sentiment include_recommendations : bool) : M text_response :=
  let sentiment_part :=
    if include_sentiment then
      (Some sentiment,
       Some (TextSentiment.combine_emotion_and_sentiment
               (emotion_analysis result) sentiment))
    else (None, None) in
  recommendation_part <-
    (if include_recommendations then
       recommendations <-
         Recommend.get_personalized_feedback
           (emotion_analysis result) (stress_analysis result) ;;
       dominant_emotion <-
         required "dominant_emotion"
           (EmotionData.dominant_emotion (emotion_analysis result)) ;;
       stress_level <-
         required "stress_level"
           (StressData.stress_level (stress_analysis result)) ;;
       ret (Some recommendations,
            Some (Recommend.get_learning_mode_recommendation
                    dominant_emotion stress_level))
     else ret (None, None)) ;;
  ret {| TextResponse.sentiment_analysis := fst sentiment_part;
         TextResponse.combined_analysis := snd sentiment_part;
         TextResponse.recommendations := fst recommendation_part;
         TextResponse.learning_mode := snd recommendation_part |}.

(** The two vocabularies returned by [list_emotions]. *)
Definition text_emotions : list string :=
  [ "joy"; "sadness"; "anger"; "fear"; "surprise"; "love"; "disgust";
    "neutral" ].
Definition facial_emotions : list string :=
  [ "Happy"; "Sad"; "Angry"; "Fear"; "Surprise"; "Disgust"; "Neutral" ].

End Main.

(** ** backend/services/recommend.py

    The awaited pause of the service is not modelled. *)

Module BackendRecommend.

Module Item.
Record recommendation : Type := mk_recommendation
  { id : string;
    type : string;
    title : string;
    description : string;
    difficulty : string }.
End Item.
Export Item(recommendation, mk_recommendation).

Definition RECOMMENDATION_DB : dict (list recommendation) :=
  [ ("happy",
     [ mk_recommendation "r1" "lesson" "Level up: Positive reinforcement"
         "Short lesson on leveraging positive emotions" "easy";
       mk_recommendation "r2" "quiz" "Quick quiz: Confidence booster"
         "5-question quiz" "easy" ]);
    ("sad",
     [ mk_recommendation "r3" "lesson" "Growth mindset tips"
         "Gentle lesson focusing on progress" "easy";
       mk_recommendation "r4" "quiz" "Reflection quiz"
         "Self-reflection prompts" "easy" ]);
    ("angry",
     [ mk_recommendation "r5" "lesson" "Managing frustration"
         "Coping strategies lesson" "medium" ]);
    ("neutral",
     [ mk_recommendation "r6" "lesson" "Adaptive practice"
         "Balanced practice session" "medium" ]) ].

(** One turn of the loop: the copy of [r], made gentler at high intensity. *)
Definition adjusted (intensity : float) (r : recommendation) : recommendation :=
  let item := r in
  if ge intensity 0.8 then
    if String.eqb (Item.difficulty item) "medium" then
      {| Item.id := Item.id item;
         Item.type := Item.type item;
         Item.title := Item.title item;
         Item.description := Item.description item;
         Item.difficulty := "easy" |}
    else item
  else item.

Definition generate_recommendations
    (user_id emotion : string) (intensity : float) : M (list recommendation) :=
  let key := lower emotion in
  neutral <- getitem RECOMMENDATION_DB "neutral" ;;
  let recs := get_default RECOMMENDATION_DB key neutral in
  ret (map (adjusted intensity) recs).

End BackendRecommend.

(** ** backend/routers/wellness.py *)

Module BackendWellness.

Module Suggestion.
Record suggestion : Type := mk_suggestion
  { id : string;
    title : string;
    description : string;
    duration_minutes : Z }.
End Suggestion.
Export Suggestion(suggestion, mk_suggestion).

Definition EMOTION_SUGGESTIONS : dict (list suggestion) :=
  [ ("sad",
     [ mk_suggestion "w1" "2-min breathing"
         "Short deep breathing exercise" 2;
       mk_suggestion "w2" "Gratitude journal"
         "Write 3 things you're grateful for" 5 ]);
    ("angry",
     [ mk_suggestion "w3" "Boxing breathing"
         "4-4-4-4 breathing exercise" 3;
       mk_suggestion "w4" "Progressive muscle relax"
         "Tense and release muscle groups" 8 ]);
    ("happy",
     [ mk_suggestion "w5" "Mindful savoring"
         "Notice pleasant details around you" 3 ]);
    ("neutral",
     [ mk_suggestion "w6" "5-min stretch"
         "Light full-body stretching" 5 ]) ].

Definition get_wellness (detected_emotion : string) (intensity : float)
    : M (list suggestion) :=
  let key := lower detected_emotion in
  neutral <- getitem EMOTION_SUGGESTIONS "neutral" ;;
  let suggestions := get_default EMOTION_SUGGESTIONS key neutral in
  ret suggestions.

End BackendWellness.

(** ** backend/services/text_sentiment.py

    The keyword skeleton of the service; the awaited pause is not modelled. *)

Module BackendSentiment.

Definition analyze_text_sentiment (text : string) : string * float :=
  let lowered := lower (strip text) in
  if any_in [ "happy"; "great"; "good"; "awesome" ] lowered then
    ("happy", 0.92)
  else if any_in [ "sad"; "unhappy"; "down" ] lowered then
    ("sad", 0.88)
  else if any_in [ "angry"; "mad"; "frustrat" ] lowered then
    ("angry", 0.86)
  else ("neutral", 0.6).

End BackendSentiment.

(** ** backend/utils/preprocess.py *)

Module Preprocess.

(** A character the pattern [[^a-z0-9\s]] leaves in place. *)
Definition kept (c : ascii) : bool :=
  let n := nat_of_ascii c in
  ((97 <=? n)%nat && (n <=? 122)%nat)
  || ((48 <=? n)%nat && (n <=? 57)%nat)
  || is_space c.

(** [re.sub(r"[^a-z0-9\s]", "", text)]. *)
Fixpoint remove_unkept (text : string) : string :=
  match text with
  | EmptyString => EmptyString
  | String c t => if kept c then String c (remove_unkept t) else remove_unkept t
  end.

Definition clean_text (text : string) : string :=
  let text := strip (lower text) in
  let text := remove_unkept text in
  text.

End Preprocess.

(** ** The MindScore categories and the selector as the specification words them *)

Module Spec.

Inductive category : Type := Critical | Low | Moderate | Good.

(** Modelled from the spec: the category classification of the MindScore,
    which [ai_models/stress_analysis/predict.py] computes and which is not
    among the sources: below 40 critical, 40 to 59 low, 60 to 79 moderate,
    80 and above good, each band closed on its lower bound. *)
Definition mind_score_category (value : float) : category :=
  if lt value 40 then Critical
  else if lt value 60 then Low
  else if lt value 80 then Moderate
  else Good.

(** The score-tier tips, one row per band as the specification words the
    selector; the rows are the lists of [generate_wellness_recommendations]. *)
Definition tier_tips (c : category) : list string :=
  match c with
  | Critical =>
      [ "🆘 Consider taking a longer break (15-30 minutes)";
        "💬 Reach out to someone you trust";
        "🏥 If feelings persist, consider professional support";
        "🎯 Focus only on essential tasks today" ]
  | Low =>
      [ "🧘 Practice mindfulness or meditation";
        "💪 Light exercise can boost your mood";
        "📱 Limit screen time outside of necessary tasks";
        "😴 Ensure you're getting adequate sleep" ]
  | Moderate | Good =>
      [ "🌟 Great mental state! Use it wisely";
        "🎯 This is ideal for tackling big goals";
        "🤝 Help others who might be struggling";
        "📚 Invest in long-term learning projects" ]
  end.

(** The encouragement, one message per band; the messages are those of
    [generate_encouragement]. *)
Definition encouragement_of (c : category) : string :=
  match c with
  | Critical => "Be gentle with yourself. Tomorrow is a new opportunity! 💙"
  | Low => "You're making progress! Every step forward counts! 🌱"
  | Moderate =>
      "You're on a good path! Stay consistent and you'll see great results! 💪"
  | Good => "You're doing amazingly well! Keep up this fantastic momentum! 🌟"
  end.

(** The emotion-specific bonus tips, present for four emotions only. *)
Definition bonus_tips (emotion : string) : option (list string) :=
  if String.eqb emotion "sadness" then
    Some [ "🌞 Get some sunlight or bright light exposure";
           "🎶 Listen to uplifting music" ]
  else if String.eqb emotion "anger" then
    Some [ "🥊 Try physical exercise to release tension";
           "📝 Journal your thoughts" ]
  else if String.eqb emotion "fear" then
    Some [ "🫂 Practice grounding techniques";
           "📖 Read something comforting" ]
  else if String.eqb emotion "joy" then
    Some [ "📸 Capture this positive moment";
           "💝 Spread positivity to others" ]
  else None.

(** Tier tips first, then the bonus tips when there are any, cut to six. *)
Definition wellness_actions (mind_score : float) (emotion : string)
    : list string :=
  firstn 6
    (tier_tips (mind_score_category mind_score)
     ++ match bonus_tips emotion with
        | Some tips => tips
        | None => []
        end)%list.

End Spec.

(** ** Reasoning about computations in [Py.M] *)

(** [succeeds m P]: from every state of the random source, [m] returns
    normally with a value satisfying [P]. *)
Definition succeeds {A} (m : M A) (P : A -> Prop) : Prop :=
  forall g, exists a g', m g = Ok (a, g') /\ P a.

(** ** Names for the pools a call draws from *)

(** The entry stored under a key of the emotion table, and the neutral one. *)
Definition entry_named (key : string) : Recommend.emotion_entry :=
  get_default Recommend.emotion_responses key (Recommend.mk_entry [] [] []).

Definition neutral_entry : Recommend.emotion_entry := entry_named "neutral".

(** The entry [generate_response] reads for an emotion label. *)
Definition selected_entry (emotion : string) : Recommend.emotion_entry :=
  get_default Recommend.emotion_responses (lower emotion) neutral_entry.

(** The strategy pool stored under a key, and the moderate-stress one. *)
Definition pool_named (key : string) : list string :=
  get_default Recommend.learning_strategies key [].

Definition moderate_pool : list string := pool_named "moderate_stress".

(** The strategy pool [generate_response] samples for a stress level. *)
Definition selected_pool (stress_level : string) : list string :=
  get_default Recommend.learning_strategies
    (if negb (String.eqb stress_level "optimal")
     then stress_level ++ "_stress" else "optimal_flow")
    moderate_pool.

(** An emotion label the emotion table does not know. *)
Definition unknown_emotion (emotion : string) : Prop :=
  get Recommend.emotion_responses (lower emotion) = None.

(** A facial label the label bridge does not know. *)
Definition unknown_facial (facial_emotion : string) : Prop :=
  get EmotionDetector.mapping facial_emotion = None.

(** A sentiment label that names neither polarity. *)
Definition unknown_sentiment (sentiment : string) : Prop :=
  contains "positive" (lower sentiment) = false
  /\ contains "negative" (lower sentiment) = false.

(** What every response of [generate_response] satisfies. *)
Definition response_spec
    (emotion : string) (confidence : float) (stress_level : string)
    (r : Recommend.Response.response) : Prop :=
  In (Recommend.Response.acknowledgment r)
     (Recommend.acknowledgment (selected_entry emotion))
  /\ In (Recommend.Response.learning_tip r)
        (Recommend.learning_tip (selected_entry emotion))
  /\ In (Recommend.Response.suggested_activity r)
        (Recommend.activity (selected_entry emotion))
  /\ length (Recommend.Response.learning_strategies r) = 3%nat
  /\ incl (Recommend.Response.learning_strategies r) (selected_pool stress_level)
  /\ NoDup (Recommend.Response.learning_strategies r)
  /\ In (Recommend.Response.motivational_quote r) Recommend.motivational_quotes
  /\ Recommend.Response.study_plan r
     = Recommend._generate_study_plan (lower emotion) stress_level
  /\ Recommend.Response.confidence_note r
     = Recommend._get_confidence_note confidence.

(** What every package of [get_personalized_feedback] satisfies, in terms of
    the four values it reads from its arguments. *)
Definition feedback_spec
    (emotion : string) (confidence : float) (stress_level : string)
    (mind_score : float) (fb : Recommend.Feedback.feedback) : Prop :=
  let empathetic := Recommend.Feedback.empathetic fb in
  let guidance := Recommend.Feedback.guidance fb in
  let actions := Recommend.Feedback.actions fb in
  let motivating := Recommend.Feedback.motivating fb in
  In (Recommend.Feedback.acknowledgment empathetic)
     (Recommend.acknowledgment (selected_entry emotion))
  /\ Recommend.Feedback.confidence_note empathetic
     = Recommend._get_confidence_note confidence
  /\ In (Recommend.Feedback.tip guidance)
        (Recommend.learning_tip (selected_entry emotion))
  /\ length (Recommend.Feedback.strategies guidance) = 3%nat
  /\ incl (Recommend.Feedback.strategies guidance) (selected_pool stress_level)
  /\ Recommend.Feedback.study_plan guidance
     = Recommend._generate_study_plan (lower emotion) stress_level
  /\ In (Recommend.Feedback.suggested_activity actions)
        (Recommend.activity (selected_entry emotion))
  /\ Recommend.Feedback.wellness_recommendations actions
     = Recommend.generate_wellness_recommendations
         mind_score emotion stress_level
  /\ In (Recommend.Feedback.quote motivating) Recommend.motivational_quotes
  /\ Recommend.Feedback.encouragement motivating
     = Recommend.generate_encouragement mind_score.

(** ** Notions used in the statements about the rest of the code *)

(** Every character of a string passes a test. *)
Fixpoint all_chars (test : ascii -> bool) (s : string) : bool :=
  match s with
  | EmptyString => true
  | String c t => test c && all_chars test t
  end.

(** [m] raises the exception [e], from every state of the random source. *)
Definition raises {A} (m : M A) (e : exn) : Prop :=
  forall g, m g = Raise e.

(** The four modes of [get_learning_mode_recommendation]. *)
Definition intensive_mode : string :=
  "🚀 Intensive Mode: Tackle complex problems and new concepts".
Definition gentle_mode : string :=
  "🌱 Gentle Mode: Review familiar material and consolidate knowledge".
Definition balanced_mode : string :=
  "⚖️ Balanced Mode: Mix of review and new learning with breaks".
Definition standard_mode : string :=
  "📚 Standard Mode: Regular study pace with periodic breaks".

(** Every text field of a study plan is filled in. *)
Definition plan_filled (plan : Recommend.Plan.study_plan) : Prop :=
  Recommend.Plan.duration plan <> ""
  /\ Recommend.Plan.approach plan <> ""
  /\ Recommend.Plan.breaks plan <> ""
  /\ Recommend.Plan.recommendation plan <> "".

(** Every field of a feedback package is filled in. *)
Definition feedback_filled (fb : Recommend.Feedback.feedback) : Prop :=
  let empathetic := Recommend.Feedback.empathetic fb in
  let guidance := Recommend.Feedback.guidance fb in
  let actions := Recommend.Feedback.actions fb in
  let motivating := Recommend.Feedback.motivating fb in
  Recommend.Feedback.acknowledgment empathetic <> ""
  /\ Recommend.Feedback.confidence_note empathetic <> ""
  /\ Recommend.Feedback.tip guidance <> ""
  /\ Recommend.Feedback.strategies guidance <> []
  /\ Forall (fun x => x <> "") (Recommend.Feedback.strategies guidance)
  /\ plan_filled (Recommend.Feedback.study_plan guidance)
  /\ Recommend.Feedback.suggested_activity actions <> ""
  /\ Recommend.Feedback.wellness_recommendations actions <> []
  /\ Forall (fun x => x <> "")
            (Recommend.Feedback.wellness_recommendations actions)
  /\ Recommend.Feedback.quote motivating <> ""
  /\ Recommend.Feedback.encouragement motivating <> "".

(** The entries of [all_emotions] come in descending order of probability. *)
Definition descending
    (xs : list EmotionDetector.Prediction.emotion_probability) : Prop :=
  StronglySorted
    (fun a b => (EmotionDetector.Prediction.probability b
                 <= EmotionDetector.Prediction.probability a)%Q)
    xs.

(** The entries of [all_emotions] before they are sorted: each label of the
    detector with the probability at its position. *)
Definition labelled (predictions : list float)
    : list EmotionDetector.Prediction.emotion_probability :=
  map (fun lp =>
         EmotionDetector.Prediction.mk_emotion_probability (fst lp) (snd lp))
      (combine EmotionDetector.emotion_labels predictions).

(** [v] is the maximum of [xs] and [r] is the first position that holds it. *)
Definition first_maximum (xs : list float) (r : nat) (v : float) : Prop :=
  nth_error xs r = Some v
  /\ (forall y, In y xs -> (y <= v)%Q)
  /\ (forall j y, (j < r)%nat -> nth_error xs j = Some y -> (y < v)%Q).

(** ** The monad: return, sequencing, weakening *)

Lemma succeeds_ret {A} (a : A) (P : A -> Prop) :
  P a -> succeeds (ret a) P.
Proof.
  intros HP g. exists a, g. split; [reflexivity | exact HP].
Qed.

Lemma succeeds_bind {A B} (m : M A) (f : A -> M B)
    (P : A -> Prop) (Q : B -> Prop) :
  succeeds m P ->
  (forall a, P a -> succeeds (f a) Q) ->
  succeeds (bind m f) Q.
Proof.
  intros Hm Hf g.
  destruct (Hm g) as (a & g1 & Ea & Pa).
  destruct (Hf a Pa g1) as (b & g2 & Eb & Qb).
  exists b, g2. unfold bind. rewrite Ea. split; assumption.
Qed.

Lemma succeeds_weaken {A} (m : M A) (P Q : A -> Prop) :
  succeeds m P -> (forall a, P a -> Q a) -> succeeds m Q.
Proof.
  intros Hm HPQ g.
  destruct (Hm g) as (a & g1 & Ea & Pa).
  exists a, g1. auto.
Qed.

Lemma succeeds_getitem {V} (d : dict V) (k : string) (v : V) :
  get d k = Some v -> succeeds (getitem d k) (eq v).
Proof.
  intros E. unfold getitem. rewrite E. now apply succeeds_ret.
Qed.

(** ** The random source: draws, choices and samples *)

Lemma succeeds_randbelow (n : nat) :
  (0 < n)%nat -> succeeds (randbelow n) (fun i => (i < n)%nat).
Proof.
  intros Hn [| r g]; simpl.
  - exists 0%nat, []. split; [reflexivity | exact Hn].
  - exists (r mod n)%nat, g. split; [reflexivity |].
    apply Nat.mod_upper_bound. lia.
Qed.

Lemma succeeds_choice {A} (seq : list A) :
  seq <> [] -> succeeds (choice seq) (fun x => In x seq).
Proof.
  destruct seq as [| d t]; [congruence | intros _].
  unfold choice.
  eapply succeeds_bind.
  - apply succeeds_randbelow. simpl. lia.
  - intros i Hi. apply succeeds_ret. now apply nth_In.
Qed.

Lemma remove_nth_length {A} (xs : list A) : forall i,
  (i < length xs)%nat -> S (length (remove_nth i xs)) = length xs.
Proof.
  induction xs as [| x t IH]; intros i Hi; simpl in *; [lia |].
  destruct i as [| j]; [reflexivity |].
  simpl. rewrite IH by lia. reflexivity.
Qed.

Lemma remove_nth_incl {A} (xs : list A) : forall i,
  incl (remove_nth i xs) xs.
Proof.
  induction xs as [| x t IH]; intros [| j] y Hy; simpl in *;
    try contradiction.
  - now right.
  - destruct Hy as [-> | Hy]; [now left | right; eapply IH; eassumption].
Qed.

Lemma remove_nth_NoDup {A} (xs : list A) (d : A) : forall i,
  (i < length xs)%nat -> NoDup xs -> NoDup (nth i xs d :: remove_nth i xs).
Proof.
  induction xs as [| x t IH]; intros i Hi ND; simpl in *; [lia |].
  inversion ND as [| ? ? Hx NDt]; subst.
  destruct i as [| j]; [assumption |].
  specialize (IH j ltac:(lia) NDt).
  inversion IH as [| ? ? Hn NDr]; subst.
  constructor.
  - simpl. intros [E | Hin]; [| contradiction].
    apply Hx. rewrite E. apply nth_In. lia.
  - constructor; [| assumption].
    intros Hin. apply Hx. eapply remove_nth_incl; eassumption.
Qed.

Lemma succeeds_sample_from {A} (k : nat) : forall pool : list A,
  (k <= length pool)%nat ->
  succeeds (sample_from k pool)
    (fun xs => length xs = k /\ incl xs pool /\ (NoDup pool -> NoDup xs)).
Proof.
  induction k as [| k IH]; intros pool Hk; simpl.
  - apply succeeds_ret. repeat split; [intros x [] | constructor].
  - destruct pool as [| d t] eqn:Ep; [simpl in Hk; lia |].
    rewrite <- Ep in *. assert (Hlen : (0 < length pool)%nat) by (subst; simpl; lia).
    eapply succeeds_bind; [apply succeeds_randbelow; exact Hlen |].
    intros i Hi. simpl in Hi.
    pose proof (remove_nth_length pool i Hi) as Hr.
    eapply succeeds_bind; [apply (IH (remove_nth i pool)); lia |].
    intros xs (Hl & Hin & Hnd). apply succeeds_ret.
    split; [simpl; congruence |]. split.
    + intros y [<- | Hy]; [now apply nth_In |].
      eapply remove_nth_incl. apply Hin. exact Hy.
    + intros ND. pose proof (remove_nth_NoDup pool d i Hi ND) as ND'.
      inversion ND' as [| ? ? Hn NDr]; subst x l.
      constructor; [| now apply Hnd].
      intros Hy. apply Hn. apply Hin. exact Hy.
Qed.

Lemma succeeds_sample {A} (population : list A) (k : nat) :
  (k <= length population)%nat ->
  succeeds (sample population k)
    (fun xs => length xs = k /\ incl xs population
               /\ (NoDup population -> NoDup xs)).
Proof.
  intros Hk. unfold sample.
  destruct (Nat.ltb_spec (length population) k) as [Hlt | _]; [lia |].
  now apply succeeds_sample_from.
Qed.

(** ** The static tables *)

Ltac nodup_strings :=
  repeat (apply NoDup_cons; [simpl; intuition discriminate |]);
  apply NoDup_nil.

Lemma get_default_cases {V} (d : dict V) (k : string) (v : V) :
  get_default d k v = v \/ In (get_default d k v) (map snd d).
Proof.
  unfold get_default.
  induction d as [| [k' v'] d IH]; simpl; [now left |].
  destruct (String.eqb k k'); [right; now left |].
  destruct IH as [E | Hin]; [now left | right; now right].
Qed.

Lemma emotion_entries_full :
  Forall (fun e => length (Recommend.acknowledgment e) = 3%nat
                   /\ length (Recommend.learning_tip e) = 3%nat
                   /\ length (Recommend.activity e) = 3%nat)
         (neutral_entry :: map snd Recommend.emotion_responses).
Proof.
  repeat constructor.
Qed.

Lemma selected_entry_full (emotion : string) :
  length (Recommend.acknowledgment (selected_entry emotion)) = 3%nat
  /\ length (Recommend.learning_tip (selected_entry emotion)) = 3%nat
  /\ length (Recommend.activity (selected_entry emotion)) = 3%nat.
Proof.
  pose proof emotion_entries_full as F.
  rewrite Forall_forall in F. apply F.
  unfold selected_entry.
  destruct (get_default_cases Recommend.emotion_responses (lower emotion)
              neutral_entry) as [-> | Hin]; [now left | now right].
Qed.

Lemma strategy_pools_full :
  Forall (fun pool => length pool = 5%nat /\ NoDup pool)
         (moderate_pool :: map snd Recommend.learning_strategies).
Proof.
  repeat (apply Forall_cons; [split; [reflexivity | nodup_strings] |]).
  apply Forall_nil.
Qed.

Lemma selected_pool_full (stress_level : string) :
  length (selected_pool stress_level) = 5%nat
  /\ NoDup (selected_pool stress_level).
Proof.
  pose proof strategy_pools_full as F.
  rewrite Forall_forall in F. apply F.
  unfold selected_pool.
  match goal with
  | |- In (get_default ?d ?k ?v) _ =>
      destruct (get_default_cases d k v) as [-> | Hin]; [now left | now right]
  end.
Qed.

Lemma nonempty_of_length {A} (xs : list A) (n : nat) :
  length xs = S n -> xs <> [].
Proof.
  intros E ->. discriminate.
Qed.

(** ** [generate_response] always returns, and what it returns *)

Lemma generate_response_succeeds
    (emotion : string) (confidence : float) (stress_level : string)
    (mind_score : option float) :
  succeeds
    (Recommend.generate_response emotion confidence stress_level mind_score)
    (response_spec emotion confidence stress_level).
Proof.
  destruct (selected_entry_full emotion) as (Ha & Ht & Hc).
  destruct (selected_pool_full stress_level) as (Hp & Hnd).
  unfold Recommend.generate_response.
  eapply succeeds_bind.
  { apply (succeeds_getitem _ _ neutral_entry). reflexivity. }
  intros ? <-.
  eapply succeeds_bind.
  { apply succeeds_choice. eapply nonempty_of_length. exact Ha. }
  intros ack Hack.
  eapply succeeds_bind.
  { apply succeeds_choice. eapply nonempty_of_length. exact Ht. }
  intros tip Htip.
  eapply succeeds_bind.
  { apply succeeds_choice. eapply nonempty_of_length. exact Hc. }
  intros act Hact.
  eapply succeeds_bind.
  { apply (succeeds_getitem _ _ moderate_pool). reflexivity. }
  intros ? <-.
  fold (selected_pool stress_level). rewrite Hp.
  eapply succeeds_bind.
  { apply succeeds_sample. rewrite Hp. simpl. lia. }
  intros strategies (Hl & Hin & Hn).
  eapply succeeds_bind.
  { apply succeeds_choice. discriminate. }
  intros quote Hq.
  apply succeeds_ret. unfold response_spec. simpl.
  repeat split; auto.
Qed.

(** ** Comparisons of scores *)

Lemma ge_spec (x y : float) : reflect (y <= x)%Q (ge x y).
Proof.
  unfold ge. destruct (Qle_bool y x) eqn:E; constructor.
  - now apply Qle_bool_iff.
  - intros H. apply Qle_bool_iff in H. congruence.
Qed.

Lemma lt_spec (x y : float) : reflect (x < y)%Q (lt x y).
Proof.
  unfold lt. destruct (Qle_bool y x) eqn:E; constructor.
  - apply Qle_bool_iff in E. lra.
  - apply Qnot_le_lt. intros H. apply Qle_bool_iff in H. congruence.
Qed.

Ltac by_cases_on_scores :=
  repeat match goal with
         | |- context [ge ?x ?y] => destruct (ge_spec x y)
         | |- context [lt ?x ?y] => destruct (lt_spec x y)
         end.

(** ** The confidence note *)

(** C9. The confidence note is a step function of the confidence: at 0.8 and
    above the high-confidence phrasing, from 0.6 up to 0.8 the medium one, from
    0.4 up to 0.6 the low one, below 0.4 the uncertainty phrasing.  The four
    conditions are disjoint, contiguous and cover every confidence, so in
    particular all of [0,1]. *)
Theorem C9_confidence_note_bands (confidence : float) :
  (Recommend._get_confidence_note confidence
     = "I'm very confident about this assessment."
   <-> 0.8 <= confidence)%Q
  /\ (Recommend._get_confidence_note confidence
        = "This assessment seems reliable."
      <-> 0.6 <= confidence < 0.8)%Q
  /\ (Recommend._get_confidence_note confidence
        = "This is my best estimate - let me know if it feels off."
      <-> 0.4 <= confidence < 0.6)%Q
  /\ (Recommend._get_confidence_note confidence
        = "I'm somewhat uncertain - please provide more context if needed."
      <-> confidence < 0.4)%Q.
Proof.
  unfold Recommend._get_confidence_note.
  by_cases_on_scores;
    repeat split; intros; try discriminate; try reflexivity; try lra.
Qed.

(** The medium band at a concrete confidence. *)
Lemma C9_confidence_note_bands_witness :
  (0.6 <= 0.7 < 0.8)%Q
  /\ Recommend._get_confidence_note 0.7 = "This assessment seems reliable.".
Proof.
  assert (H : (0.6 <= 0.7 < 0.8)%Q) by (split; [discriminate | reflexivity]).
  split; [exact H |].
  exact (proj2 (proj1 (proj2 (C9_confidence_note_bands 0.7))) H).
Defined.

(** ** Score bands *)

Lemma category_bands (value : float) :
  (Spec.mind_score_category value = Spec.Critical <-> value < 40)%Q
  /\ (Spec.mind_score_category value = Spec.Low <-> 40 <= value < 60)%Q
  /\ (Spec.mind_score_category value = Spec.Moderate <-> 60 <= value < 80)%Q
  /\ (Spec.mind_score_category value = Spec.Good <-> 80 <= value)%Q.
Proof.
  unfold Spec.mind_score_category.
  by_cases_on_scores;
    repeat split; intros; try discriminate; try reflexivity; try lra.
Qed.

Lemma encouragement_by_category (mind_score : float) :
  Recommend.generate_encouragement mind_score
  = Spec.encouragement_of (Spec.mind_score_category mind_score).
Proof.
  unfold Recommend.generate_encouragement, Spec.mind_score_category.
  by_cases_on_scores; try reflexivity; lra.
Qed.

Lemma encouragement_of_inj (c d : Spec.category) :
  Spec.encouragement_of c = Spec.encouragement_of d -> c = d.
Proof.
  destruct c, d; simpl; intros E; try reflexivity; discriminate E.
Qed.

Lemma wellness_by_category (mind_score : float) (emotion stress_level : string) :
  Recommend.generate_wellness_recommendations mind_score emotion stress_level
  = firstn 6
      (Spec.tier_tips (Spec.mind_score_category mind_score)
       ++ match get Recommend.emotion_wellness emotion with
          | Some tips => tips
          | None => []
          end)%list.
Proof.
  unfold Recommend.generate_wellness_recommendations, Spec.mind_score_category,
    slice_to.
  by_cases_on_scores; try lra;
    destruct (get Recommend.emotion_wellness emotion); simpl;
    rewrite ?app_nil_r; reflexivity.
Qed.

Lemma bonus_tips_table (emotion : string) :
  Spec.bonus_tips emotion = get Recommend.emotion_wellness emotion.
Proof.
  unfold Spec.bonus_tips. simpl.
  repeat match goal with
         | |- context [String.eqb ?a ?b] => destruct (String.eqb a b)
         end; reflexivity.
Qed.

Lemma bonus_tips_pairs (emotion : string) (tips : list string) :
  Spec.bonus_tips emotion = Some tips -> length tips = 2%nat.
Proof.
  unfold Spec.bonus_tips.
  repeat match goal with
         | |- context [String.eqb ?a ?b] => destruct (String.eqb a b)
         end; intros E; inversion E; reflexivity.
Qed.

Lemma tier_tips_four (c : Spec.category) : length (Spec.tier_tips c) = 4%nat.
Proof.
  destruct c; reflexivity.
Qed.

(** The score tier of the wellness recommendations does not change at 80:
    79 is in the moderate band and 80 in the good one, the encouragement
    differs, the wellness recommendations do not. *)
Lemma C2_counterexample_wellness_has_no_tier_at_80 :
  Spec.mind_score_category 79 = Spec.Moderate
  /\ Spec.mind_score_category 80 = Spec.Good
  /\ Recommend.generate_encouragement 79 <> Recommend.generate_encouragement 80
  /\ Recommend.generate_wellness_recommendations 79 "neutral" "low"
     = [ "🌟 Great mental state! Use it wisely";
         "🎯 This is ideal for tackling big goals";
         "🤝 Help others who might be struggling";
         "📚 Invest in long-term learning projects" ]
  /\ Recommend.generate_wellness_recommendations 80 "neutral" "low"
     = Recommend.generate_wellness_recommendations 79 "neutral" "low"
  /\ ~ (forall (v w : float) (emotion stress_level : string),
          Spec.mind_score_category v <> Spec.mind_score_category w ->
          Recommend.generate_wellness_recommendations v emotion stress_level
          <> Recommend.generate_wellness_recommendations w emotion stress_level).
Proof.
  split; [reflexivity |]. split; [reflexivity |].
  split; [discriminate |]. split; [reflexivity |]. split; [reflexivity |].
  intros H. apply (H 79 80 "neutral" "low"); [discriminate | reflexivity].
Qed.

(** C2 (as the code has it). The four bands are closed on their lower bounds:
    40 is low, 60 is moderate, 80 is good.  The encouragement branches on
    exactly these thresholds: one message per band, changing exactly where
    the band changes, with 40, 60 and 80 on the upper side.  The wellness
    recommendations branch on 40 and 60 only, closed on the lower bound as
    well: their score tier is one list below 40, one from 40 up to 60 and one
    for every score of 60 and above, so two scores give the same
    recommendations exactly when they fall in the same of these three
    tiers. *)
Theorem C2_score_tiers_of_the_outputs
    (v w : float) (emotion stress_level : string) :
  (Spec.mind_score_category 40 = Spec.Low
   /\ Spec.mind_score_category 60 = Spec.Moderate
   /\ Spec.mind_score_category 80 = Spec.Good)
  /\ ((Spec.mind_score_category v = Spec.Critical <-> v < 40)%Q
      /\ (Spec.mind_score_category v = Spec.Low <-> 40 <= v < 60)%Q
      /\ (Spec.mind_score_category v = Spec.Moderate <-> 60 <= v < 80)%Q
      /\ (Spec.mind_score_category v = Spec.Good <-> 80 <= v)%Q)
  /\ Recommend.generate_encouragement v
     = Spec.encouragement_of (Spec.mind_score_category v)
  /\ (Recommend.generate_encouragement v = Recommend.generate_encouragement w
      <-> Spec.mind_score_category v = Spec.mind_score_category w)
  /\ (Recommend.generate_encouragement 40
       = "You're making progress! Every step forward counts! 🌱"
      /\ Recommend.generate_encouragement 60
         = "You're on a good path! Stay consistent and you'll see great results! 💪"
      /\ Recommend.generate_encouragement 80
         = "You're doing amazingly well! Keep up this fantastic momentum! 🌟")
  /\ (((v < 40)%Q ->
       firstn 4 (Recommend.generate_wellness_recommendations
                   v emotion stress_level)
       = [ "🆘 Consider taking a longer break (15-30 minutes)";
           "💬 Reach out to someone you trust";
           "🏥 If feelings persist, consider professional support";
           "🎯 Focus only on essential tasks today" ])
      /\ ((40 <= v < 60)%Q ->
          firstn 4 (Recommend.generate_wellness_recommendations
                      v emotion stress_level)
          = [ "🧘 Practice mindfulness or meditation";
              "💪 Light exercise can boost your mood";
              "📱 Limit screen time outside of necessary tasks";
              "😴 Ensure you're getting adequate sleep" ])
      /\ ((60 <= v)%Q ->
          firstn 4 (Recommend.generate_wellness_recommendations
                      v emotion stress_level)
          = [ "🌟 Great mental state! Use it wisely";
              "🎯 This is ideal for tackling big goals";
              "🤝 Help others who might be struggling";
              "📚 Invest in long-term learning projects" ]))
  /\ (Recommend.generate_wellness_recommendations v emotion stress_level
      = Recommend.generate_wellness_recommendations w emotion stress_level
      <-> ((v < 40 /\ w < 40)
           \/ (40 <= v < 60 /\ 40 <= w < 60)
           \/ (60 <= v /\ 60 <= w))%Q).
Proof.
  split; [repeat split |].
  split; [apply category_bands |].
  split; [apply encouragement_by_category |].
  split.
  { rewrite !encouragement_by_category. split.
    - apply encouragement_of_inj.
    - intros ->. reflexivity. }
  split; [repeat split |].
  split.
  { unfold Recommend.generate_wellness_recommendations, slice_to.
    repeat split; intros H; by_cases_on_scores; try lra;
      destruct (get Recommend.emotion_wellness emotion) as [tips |];
      reflexivity. }
  unfold Recommend.generate_wellness_recommendations, slice_to.
  by_cases_on_scores; try lra;
    destruct (get Recommend.emotion_wellness emotion) as [tips |];
    simpl; split; intros H;
    try reflexivity; try discriminate H;
    try (left; split; lra);
    try (right; left; split; lra);
    try (right; right; split; lra);
    try (exfalso; destruct H as [H | [H | H]]; lra).
Qed.

(** The low band at 45, and the shared tier of 70 and 90. *)
Lemma C2_score_tiers_of_the_outputs_witness :
  ((40 <= 45 < 60)%Q
   /\ Spec.mind_score_category 45 = Spec.Low
   /\ firstn 4 (Recommend.generate_wellness_recommendations 45 "joy" "low")
      = [ "🧘 Practice mindfulness or meditation";
          "💪 Light exercise can boost your mood";
          "📱 Limit screen time outside of necessary tasks";
          "😴 Ensure you're getting adequate sleep" ])
  /\ ((60 <= 70 /\ 60 <= 90)%Q
      /\ Recommend.generate_wellness_recommendations 70 "joy" "low"
         = Recommend.generate_wellness_recommendations 90 "joy" "low").
Proof.
  assert (H45 : (40 <= 45 < 60)%Q) by (split; [discriminate | reflexivity]).
  assert (H79 : (60 <= 70 /\ 60 <= 90)%Q) by (split; discriminate).
  split.
  - pose proof (C2_score_tiers_of_the_outputs 45 45 "joy" "low")
      as (_ & (_ & HL & _) & _ & _ & _ & (_ & HW & _) & _).
    split; [exact H45 |]. split; [exact (proj2 HL H45) | exact (HW H45)].
  - pose proof (C2_score_tiers_of_the_outputs 70 90 "joy" "low")
      as (_ & _ & _ & _ & _ & _ & HE).
    split; [exact H79 |]. apply (proj2 HE). right. right. exact H79.
Defined.

(** ** The wellness recommendations *)

(** C5. The wellness recommendations are the score-tier tips of the score's
    band, followed by the bonus tips of the emotion when it has any, cut from
    the tail to at most six entries.  (The tier tips are four and the bonus tips
    two, so the cut removes nothing.) *)
Theorem C5_wellness_actions_composition
    (mind_score : float) (emotion stress_level : string) :
  Recommend.generate_wellness_recommendations mind_score emotion stress_level
  = Spec.wellness_actions mind_score emotion
  /\ (length (Recommend.generate_wellness_recommendations
                mind_score emotion stress_level) <= 6)%nat
  /\ (Spec.bonus_tips emotion = None ->
      Recommend.generate_wellness_recommendations
        mind_score emotion stress_level
      = Spec.tier_tips (Spec.mind_score_category mind_score))
  /\ (forall tips, Spec.bonus_tips emotion = Some tips ->
      Recommend.generate_wellness_recommendations
        mind_score emotion stress_level
      = Spec.tier_tips (Spec.mind_score_category mind_score) ++ tips)%list.
Proof.
  rewrite wellness_by_category. unfold Spec.wellness_actions.
  rewrite <- bonus_tips_table.
  split; [reflexivity |]. split; [apply firstn_le_length |]. split.
  - intros ->. rewrite app_nil_r.
    apply firstn_all2. rewrite tier_tips_four. lia.
  - intros tips E. rewrite E.
    apply firstn_all2. rewrite length_app, tier_tips_four.
    rewrite (bonus_tips_pairs _ _ E). lia.
Qed.

(** A sad reading at score 45: low-band tips, then the two sadness tips. *)
Lemma C5_wellness_actions_composition_witness :
  Spec.bonus_tips "sadness"
  = Some [ "🌞 Get some sunlight or bright light exposure";
           "🎶 Listen to uplifting music" ]
  /\ Recommend.generate_wellness_recommendations 45 "sadness" "high"
     = (Spec.tier_tips Spec.Low
        ++ [ "🌞 Get some sunlight or bright light exposure";
             "🎶 Listen to uplifting music" ])%list.
Proof.
  split; [reflexivity |].
  exact (proj2 (proj2 (proj2
           (C5_wellness_actions_composition 45 "sadness" "high")))
           _ eq_refl).
Defined.

(** ** The study plan table *)

(** The curated keys of the table [plans]. *)
Lemma plans_keys :
  map fst Recommend.plans
  = [ ("joy", "low"); ("sadness", "high"); ("anger", "high");
      ("fear", "moderate") ].
Proof.
  reflexivity.
Qed.

Lemma pair_eqb_spec (a b : string * string) : reflect (a = b) (pair_eqb a b).
Proof.
  destruct a as [a1 a2], b as [b1 b2]. unfold pair_eqb. simpl.
  destruct (String.eqb_spec a1 b1) as [-> | N1];
    destruct (String.eqb_spec a2 b2) as [-> | N2];
    constructor; congruence.
Qed.

Lemma get2_In {V} (d : dict2 V) (k : string * string) :
  In k (map fst d) -> exists v, get2 d k = Some v /\ In (k, v) d.
Proof.
  induction d as [| [k' v'] d IH]; simpl; [contradiction |].
  intros H. destruct (pair_eqb_spec k k') as [-> | N].
  - exists v'. split; [reflexivity | now left].
  - destruct H as [E | H]; [congruence |].
    destruct (IH H) as (v & E & Hin). exists v. split; [exact E | now right].
Qed.

Lemma get2_not_In {V} (d : dict2 V) (k : string * string) :
  ~ In k (map fst d) -> get2 d k = None.
Proof.
  induction d as [| [k' v'] d IH]; simpl; [reflexivity |].
  intros H. destruct (pair_eqb_spec k k') as [-> | N].
  - exfalso. apply H. now left.
  - apply IH. intros Hin. apply H. now right.
Qed.

(** C7. The study plan is read from a table keyed by the exact pair of emotion
    and stress level, whose keys are (joy, low), (sadness, high), (anger, high)
    and (fear, moderate); a pair that is a key gets its own row, every other
    pair gets the default plan; sadness under high stress gets the short,
    gentle plan. *)
Theorem C7_study_plan_table (emotion stress_level : string) :
  map fst Recommend.plans
  = [ ("joy", "low"); ("sadness", "high"); ("anger", "high");
      ("fear", "moderate") ]
  /\ (In (emotion, stress_level) (map fst Recommend.plans) ->
      In ((emotion, stress_level),
          Recommend._generate_study_plan emotion stress_level)
         Recommend.plans
      /\ Recommend._generate_study_plan emotion stress_level
         <> Recommend.default_plan)
  /\ (~ In (emotion, stress_level) (map fst Recommend.plans) ->
      Recommend._generate_study_plan emotion stress_level
      = Recommend.default_plan)
  /\ Recommend._generate_study_plan "sadness" "high"
     = {| Recommend.Plan.duration := "15-20 minutes";
          Recommend.Plan.approach := "Gentle review of familiar topics";
          Recommend.Plan.breaks := "Frequent, every 15 minutes";
          Recommend.Plan.recommendation :=
            "Be kind to yourself. Small steps count." |}.
Proof.
  split; [reflexivity |]. split; [| split; [| reflexivity]].
  - intros Hin. unfold Recommend._generate_study_plan.
    destruct (get2_In _ _ Hin) as (plan & -> & Hrow).
    split; [exact Hrow |].
    simpl in Hrow.
    repeat (destruct Hrow as [E | Hrow];
            [inversion E; subst; discriminate |]).
    contradiction.
  - intros Hout. unfold Recommend._generate_study_plan.
    now rewrite (get2_not_In _ _ Hout).
Qed.

(** A pair outside the table, and a pair inside it. *)
Lemma C7_study_plan_table_witness :
  (~ In ("surprise", "optimal") (map fst Recommend.plans)
   /\ Recommend._generate_study_plan "surprise" "optimal"
      = Recommend.default_plan)
  /\ (In ("fear", "moderate") (map fst Recommend.plans)
      /\ Recommend._generate_study_plan "fear" "moderate"
         <> Recommend.default_plan).
Proof.
  assert (Hout : ~ In ("surprise", "optimal") (map fst Recommend.plans)).
  { simpl. intros H.
    repeat (destruct H as [H | H]; [discriminate H |]). exact H. }
  assert (Hin : In ("fear", "moderate") (map fst Recommend.plans)).
  { simpl. do 3 right. left. reflexivity. }
  split.
  - split; [exact Hout |].
    exact (proj1 (proj2 (proj2
             (C7_study_plan_table "surprise" "optimal"))) Hout).
  - split; [exact Hin |].
    exact (proj2 (proj1 (proj2
             (C7_study_plan_table "fear" "moderate")) Hin)).
Defined.

(** ** The strategy pool of a stress level *)

Lemma list_ascii_of_string_append (s t : string) :
  list_ascii_of_string (s ++ t)
  = (list_ascii_of_string s ++ list_ascii_of_string t)%list.
Proof.
  induction s as [| c s IH]; simpl; [reflexivity | now rewrite IH].
Qed.

Lemma append_cancel_r (s1 s2 t : string) : s1 ++ t = s2 ++ t -> s1 = s2.
Proof.
  intros E. apply (f_equal list_ascii_of_string) in E.
  rewrite !list_ascii_of_string_append in E.
  apply app_inv_tail in E.
  rewrite <- (string_of_list_ascii_of_string s1),
          <- (string_of_list_ascii_of_string s2).
  now rewrite E.
Qed.

Lemma stress_key_never_flow (s : string) : s ++ "_stress" <> "optimal_flow".
Proof.
  intros E. apply (f_equal (fun x => rev (list_ascii_of_string x))) in E.
  rewrite list_ascii_of_string_append, rev_app_distr in E.
  simpl in E. discriminate E.
Qed.

Lemma selected_pool_moderate (stress_level : string) :
  stress_level <> "low" -> stress_level <> "high" ->
  stress_level <> "optimal" ->
  selected_pool stress_level = moderate_pool.
Proof.
  intros Nlow Nhigh Nopt. unfold selected_pool.
  destruct (String.eqb_spec stress_level "optimal") as [E | _];
    [contradiction |].
  simpl negb. cbv iota.
  unfold get_default, Recommend.learning_strategies,
    Recommend._load_learning_strategies, get.
  destruct (String.eqb_spec (stress_level ++ "_stress") "low_stress")
    as [E | _].
  { exfalso. apply Nlow. apply (append_cancel_r _ "low" "_stress"). exact E. }
  destruct (String.eqb_spec (stress_level ++ "_stress") "moderate_stress")
    as [E | _]; [reflexivity |].
  destruct (String.eqb_spec (stress_level ++ "_stress") "high_stress")
    as [E | _].
  { exfalso. apply Nhigh. apply (append_cancel_r _ "high" "_stress"). exact E. }
  destruct (String.eqb_spec (stress_level ++ "_stress") "optimal_flow")
    as [E | _]; [| reflexivity].
  exfalso. exact (stress_key_never_flow _ E).
Qed.

(** C10. For every stress level other than low, high and optimal, whether the
    documented moderate or any other string, the strategies of the response
    are drawn from the moderate-stress pool: three distinct entries of it, so
    the field is populated. *)
Theorem C10_other_stress_levels_use_moderate_pool
    (emotion : string) (confidence : float) (stress_level : string)
    (mind_score : option float) :
  stress_level <> "low" -> stress_level <> "high" ->
  stress_level <> "optimal" ->
  selected_pool stress_level = pool_named "moderate_stress"
  /\ succeeds
       (Recommend.generate_response emotion confidence stress_level mind_score)
       (fun r =>
          incl (Recommend.Response.learning_strategies r)
               (pool_named "moderate_stress")
          /\ length (Recommend.Response.learning_strategies r) = 3%nat
          /\ NoDup (Recommend.Response.learning_strategies r)).
Proof.
  intros Nlow Nhigh Nopt.
  pose proof (selected_pool_moderate stress_level Nlow Nhigh Nopt) as E.
  split; [exact E |].
  eapply succeeds_weaken; [apply generate_response_succeeds |].
  intros r (_ & _ & _ & Hl & Hin & Hnd & _).
  rewrite E in Hin. auto.
Qed.

(** The undocumented stress level [unknown], with a source drawing 0, 1, 2. *)
Lemma C10_other_stress_levels_use_moderate_pool_witness :
  ("unknown" <> "low" /\ "unknown" <> "high" /\ "unknown" <> "optimal")
  /\ selected_pool "unknown" = pool_named "moderate_stress"
  /\ exists r g',
       Recommend.generate_response "joy" 0.9 "unknown" None [0; 1; 2]%nat
       = Ok (r, g')
       /\ incl (Recommend.Response.learning_strategies r)
               (pool_named "moderate_stress").
Proof.
  assert (Nlow : "unknown" <> "low") by discriminate.
  assert (Nhigh : "unknown" <> "high") by discriminate.
  assert (Nopt : "unknown" <> "optimal") by discriminate.
  destruct (C10_other_stress_levels_use_moderate_pool
              "joy" 0.9 "unknown" None Nlow Nhigh Nopt) as (E & S).
  split; [auto |]. split; [exact E |].
  destruct (S [0; 1; 2]%nat) as (r & g' & Er & Hin & _).
  exists r, g'. split; [exact Er | exact Hin].
Defined.

(** ** [get_personalized_feedback] always returns, and what it returns *)

Lemma get_personalized_feedback_succeeds
    (emotion_data : emotion_data) (stress_data : stress_data) :
  succeeds
    (Recommend.get_personalized_feedback emotion_data stress_data)
    (feedback_spec
       (or_default (EmotionData.dominant_emotion emotion_data) "neutral")
       (or_default (EmotionData.confidence emotion_data) 0.0)
       (or_default (StressData.stress_level stress_data) "moderate")
       (or_default
          (MindScoreData.mind_score
             (or_default (StressData.mind_score stress_data) no_mind_score))
          50)).
Proof.
  unfold Recommend.get_personalized_feedback.
  eapply succeeds_bind; [apply generate_response_succeeds |].
  intros r (Ha & Ht & Hc & Hl & Hin & _ & Hq & Hp & Hn).
  apply succeeds_ret. unfold feedback_spec. simpl.
  repeat split; assumption.
Qed.

Lemma wellness_at_least_four (mind_score : float) (emotion stress_level : string) :
  (4 <= length (Recommend.generate_wellness_recommendations
                  mind_score emotion stress_level))%nat.
Proof.
  rewrite wellness_by_category.
  destruct (Spec.mind_score_category mind_score);
    destruct (get Recommend.emotion_wellness emotion) as [[| a [| b tips]] |];
    simpl; lia.
Qed.

(** C6. For every emotion label, listed in the tables or not, and every stress
    level, the selector returns normally with three learning strategies, and
    the wellness recommendations have at least four entries; so neither list
    of the feedback is ever empty. *)
Theorem C6_strategies_and_wellness_never_empty
    (emotion : string) (confidence : float) (stress_level : string)
    (mind_score : option float) (score : float)
    (emotion_data : emotion_data) (stress_data : stress_data) :
  succeeds
    (Recommend.generate_response emotion confidence stress_level mind_score)
    (fun r => Recommend.Response.learning_strategies r <> []
              /\ length (Recommend.Response.learning_strategies r) = 3%nat)
  /\ (Recommend.generate_wellness_recommendations score emotion stress_level
       <> []
      /\ (4 <= length (Recommend.generate_wellness_recommendations
                         score emotion stress_level))%nat)
  /\ succeeds
       (Recommend.get_personalized_feedback emotion_data stress_data)
       (fun fb =>
          Recommend.Feedback.strategies (Recommend.Feedback.guidance fb) <> []
          /\ Recommend.Feedback.wellness_recommendations
               (Recommend.Feedback.actions fb) <> []).
Proof.
  split; [| split].
  - eapply succeeds_weaken; [apply generate_response_succeeds |].
    intros r (_ & _ & _ & Hl & _).
    split; [eapply nonempty_of_length; exact Hl | exact Hl].
  - pose proof (wellness_at_least_four score emotion stress_level) as H.
    split; [| exact H].
    intros E. rewrite E in H. simpl in H. lia.
  - eapply succeeds_weaken; [apply get_personalized_feedback_succeeds |].
    intros fb (_ & _ & _ & Hl & _ & _ & _ & Hw & _).
    split; [eapply nonempty_of_length; exact Hl |].
    rewrite Hw. intros E.
    match type of E with
    | Recommend.generate_wellness_recommendations ?m ?e ?s = [] =>
        pose proof (wellness_at_least_four m e s) as H
    end.
    rewrite E in H. simpl in H. lia.
Qed.

(** ** Missing readings *)

(** Both readings without any field: the package is still produced, from the
    defaults, and no exception is raised. *)
Lemma C3_counterexample_missing_readings_answered :
  (exists fb,
     Recommend.get_personalized_feedback no_emotion no_stress [] = Ok (fb, [])
     /\ Recommend.Feedback.encouragement (Recommend.Feedback.motivating fb)
        = "You're making progress! Every step forward counts! 🌱"
     /\ Recommend.Feedback.wellness_recommendations
          (Recommend.Feedback.actions fb)
        = [ "🧘 Practice mindfulness or meditation";
            "💪 Light exercise can boost your mood";
            "📱 Limit screen time outside of necessary tasks";
            "😴 Ensure you're getting adequate sleep" ])
  /\ (forall e,
        Recommend.get_personalized_feedback no_emotion no_stress []
        <> Raise e).
Proof.
  split.
  - eexists. split; [vm_compute; reflexivity |]. split; reflexivity.
  - intros e. vm_compute. discriminate.
Qed.

(** C3 (as the code has it). A reading that lacks its fields is not an error:
    [get_personalized_feedback] returns normally for all readings, reading
    'neutral' for a missing emotion, 0.0 for a missing confidence, 'moderate'
    for a missing stress level and 50 for a missing score, and the package is
    fully populated; with both readings empty it is the neutral, moderate-stress
    package of score 50.  When no text analysis is supplied at all,
    [comprehensive_analysis] returns without recommendations. *)
Theorem C3_missing_readings_are_defaulted
    (emotion_data : emotion_data) (stress_data : stress_data)
    (image : option Main.image_analysis) :
  succeeds
    (Recommend.get_personalized_feedback emotion_data stress_data)
    (feedback_spec
       (or_default (EmotionData.dominant_emotion emotion_data) "neutral")
       (or_default (EmotionData.confidence emotion_data) 0.0)
       (or_default (StressData.stress_level stress_data) "moderate")
       (or_default
          (MindScoreData.mind_score
             (or_default (StressData.mind_score stress_data) no_mind_score))
          50))
  /\ succeeds
       (Recommend.get_personalized_feedback no_emotion no_stress)
       (fun fb =>
          In (Recommend.Feedback.acknowledgment
                (Recommend.Feedback.empathetic fb))
             (Recommend.acknowledgment (entry_named "neutral"))
          /\ Recommend.Feedback.confidence_note
               (Recommend.Feedback.empathetic fb)
             = "I'm somewhat uncertain - please provide more context if needed."
          /\ incl (Recommend.Feedback.strategies
                     (Recommend.Feedback.guidance fb))
                  (pool_named "moderate_stress")
          /\ Recommend.Feedback.study_plan (Recommend.Feedback.guidance fb)
             = Recommend.default_plan
          /\ Recommend.Feedback.wellness_recommendations
               (Recommend.Feedback.actions fb)
             = Spec.tier_tips Spec.Low
          /\ Recommend.Feedback.encouragement
               (Recommend.Feedback.motivating fb)
             = Spec.encouragement_of Spec.Low)
  /\ succeeds
       (Main.comprehensive_analysis None image)
       (fun r => Main.Results.recommendations r = None
                 /\ Main.Results.combined_insights r = None).
Proof.
  split; [apply get_personalized_feedback_succeeds |]. split.
  - eapply succeeds_weaken; [apply get_personalized_feedback_succeeds |].
    simpl. intros fb (Ha & Hn & _ & _ & Hin & Hp & _ & Hw & _ & He).
    repeat split; assumption.
  - unfold Main.comprehensive_analysis. simpl.
    eapply succeeds_bind; [apply (succeeds_ret _ (eq None)); reflexivity |].
    intros insights <-.
    eapply succeeds_bind; [apply (succeeds_ret _ (eq None)); reflexivity |].
    intros recs <-.
    apply succeeds_ret. split; reflexivity.
Qed.

(** ** Confidence outside the unit interval *)

(** A confidence of 1.5 is answered, with the high-confidence note. *)
Lemma C4_counterexample_confidence_above_one_accepted :
  (exists r,
     Recommend.generate_response "joy" 1.5 "low" None [] = Ok (r, [])
     /\ Recommend.Response.confidence_note r
        = "I'm very confident about this assessment.")
  /\ (forall e,
        Recommend.generate_response "joy" 1.5 "low" None [] <> Raise e).
Proof.
  split.
  - eexists. split; [vm_compute; reflexivity | reflexivity].
  - intros e. vm_compute. discriminate.
Qed.

(** C4 (as the code has it). A confidence outside [0,1] is taken as it is:
    [generate_response] returns normally, with the high-confidence note for a
    confidence above 1 and the uncertainty note for a confidence below 0, and
    [combine_emotion_and_sentiment] reports the confidence unchanged; nothing
    is rejected and nothing is clamped. *)
Theorem C4_out_of_range_confidence_is_accepted
    (emotion : string) (confidence : float) (stress_level : string)
    (mind_score valence : option float) (sentiment_data : sentiment_data) :
  (confidence < 0 \/ 1 < confidence)%Q ->
  succeeds
    (Recommend.generate_response emotion confidence stress_level mind_score)
    (fun r =>
       ((1 < confidence)%Q ->
        Recommend.Response.confidence_note r
        = "I'm very confident about this assessment.")
       /\ ((confidence < 0)%Q ->
           Recommend.Response.confidence_note r
           = "I'm somewhat uncertain - please provide more context if needed."))
  /\ TextSentiment.Combined.confidence_of
       (TextSentiment.Combined.emotion
          (TextSentiment.combine_emotion_and_sentiment
             (mk_emotion_data (Some emotion) (Some confidence) valence)
             sentiment_data))
     = confidence.
Proof.
  intros _. split; [| reflexivity].
  eapply succeeds_weaken; [apply generate_response_succeeds |].
  intros r (_ & _ & _ & _ & _ & _ & _ & _ & Hn).
  rewrite Hn. unfold Recommend._get_confidence_note.
  split; intros H; by_cases_on_scores; try reflexivity; lra.
Qed.

(** A confidence of -0.3, with a source drawing 2, 0, 1. *)
Lemma C4_out_of_range_confidence_is_accepted_witness :
  (-0.3 < 0 \/ 1 < -0.3)%Q
  /\ (exists r g',
        Recommend.generate_response "fear" (-0.3) "moderate" None [2; 0; 1]%nat
        = Ok (r, g')
        /\ Recommend.Response.confidence_note r
           = "I'm somewhat uncertain - please provide more context if needed.")
  /\ TextSentiment.Combined.confidence_of
       (TextSentiment.Combined.emotion
          (TextSentiment.combine_emotion_and_sentiment
             (mk_emotion_data (Some "fear") (Some (-0.3)) None)
             no_sentiment))
     = (-0.3)%Q.
Proof.
  assert (H : (-0.3 < 0 \/ 1 < -0.3)%Q) by (left; reflexivity).
  destruct (C4_out_of_range_confidence_is_accepted
              "fear" (-0.3) "moderate" None None no_sentiment H) as (S & E).
  split; [exact H |]. split; [| exact E].
  destruct (S [2; 0; 1]%nat) as (r & g' & Er & _ & Hneg).
  exists r, g'. split; [exact Er | apply Hneg; reflexivity].
Defined.

(** ** Unknown labels *)

Lemma selected_entry_unknown (emotion : string) :
  unknown_emotion emotion -> selected_entry emotion = entry_named "neutral".
Proof.
  unfold unknown_emotion, selected_entry, get_default. intros ->. reflexivity.
Qed.

(** An unseen sentiment label that holds the word positive is scored as
    positive, not as 0; and an unknown emotion is not compared as neutral. *)
Lemma C8_counterexample_unseen_label_is_not_neutral :
  ~ In (lower "not_positive") [ "positive"; "negative"; "neutral" ]
  /\ (TextSentiment.sentiment_polarity_of "not_positive" 0.9 == 0.9)%Q
  /\ ~ (TextSentiment.sentiment_polarity_of "not_positive" 0.9 == 0)%Q
  /\ ~ (TextSentiment.Combined.sentiment_polarity
          (TextSentiment.combine_emotion_and_sentiment
             (mk_emotion_data (Some "joy") (Some 0.8) (Some 0.5))
             (mk_sentiment_data (Some "not_positive") (Some 0.9))) == 0)%Q
  /\ unknown_emotion "bored"
  /\ TextSentiment.Combined.aligned
       (TextSentiment.combine_emotion_and_sentiment
          (mk_emotion_data (Some "bored") (Some 0.8) None)
          (mk_sentiment_data (Some "neutral") (Some 0.9)))
     = false
  /\ TextSentiment.Combined.aligned
       (TextSentiment.combine_emotion_and_sentiment
          (mk_emotion_data (Some "neutral") (Some 0.8) None)
          (mk_sentiment_data (Some "neutral") (Some 0.9)))
     = true.
Proof.
  split; [simpl; intuition discriminate |].
  split; [reflexivity |].
  split; [intros H; discriminate H |].
  split; [intros H; discriminate H |].
  repeat split.
Qed.

(** C8 (as the code has it). No label raises an error, and what happens to a
    label outside the vocabularies depends on the place.  The label bridge
    maps an unknown facial label to 'neutral', and the response to an unknown
    emotion label is drawn from the neutral templates.  A sentiment label is
    read by the words it holds: positive, with the confidence as polarity,
    when its lower-case form holds the word positive; otherwise negative, with
    minus the confidence, when it holds the word negative; polarity 0 only
    when it holds neither.  The emotion-sentiment comparison keeps an emotion
    label as it is: one outside the eight listed labels is never aligned. *)
Theorem C8_labels_outside_the_vocabularies
    (facial_emotion emotion sentiment stress_level : string)
    (confidence sentiment_confidence : float) (mind_score : option float)
    (emotion_confidence valence : option float) :
  (unknown_facial facial_emotion ->
   EmotionDetector.map_facial_to_text_emotion facial_emotion = "neutral")
  /\ (unknown_emotion emotion ->
      succeeds
        (Recommend.generate_response emotion confidence stress_level mind_score)
        (fun r =>
           In (Recommend.Response.acknowledgment r)
              (Recommend.acknowledgment (entry_named "neutral"))
           /\ In (Recommend.Response.learning_tip r)
                 (Recommend.learning_tip (entry_named "neutral"))
           /\ In (Recommend.Response.suggested_activity r)
                 (Recommend.activity (entry_named "neutral"))))
  /\ (contains "positive" (lower sentiment) = true ->
      (TextSentiment.sentiment_polarity_of sentiment sentiment_confidence
       == sentiment_confidence)%Q)
  /\ (contains "positive" (lower sentiment) = false ->
      contains "negative" (lower sentiment) = true ->
      (TextSentiment.sentiment_polarity_of sentiment sentiment_confidence
       == - sentiment_confidence)%Q)
  /\ (unknown_sentiment sentiment ->
      (TextSentiment.sentiment_polarity_of sentiment sentiment_confidence
       == 0)%Q)
  /\ (~ In emotion (TextSentiment.positive_emotions
                    ++ TextSentiment.negative_emotions ++ [ "neutral" ])%list ->
      TextSentiment.Combined.aligned
        (TextSentiment.combine_emotion_and_sentiment
           (mk_emotion_data (Some emotion) emotion_confidence valence)
           (mk_sentiment_data (Some sentiment) (Some sentiment_confidence)))
      = false
      /\ TextSentiment.Combined.label_of
           (TextSentiment.Combined.emotion
              (TextSentiment.combine_emotion_and_sentiment
                 (mk_emotion_data (Some emotion) emotion_confidence valence)
                 (mk_sentiment_data (Some sentiment)
                                    (Some sentiment_confidence))))
         = emotion).
Proof.
  split; [| split; [| split; [| split; [| split]]]].
  - unfold unknown_facial, EmotionDetector.map_facial_to_text_emotion,
      get_default.
    intros ->. reflexivity.
  - intros U.
    eapply succeeds_weaken; [apply generate_response_succeeds |].
    intros r (Ha & Ht & Hc & _).
    rewrite (selected_entry_unknown _ U) in Ha, Ht, Hc. auto.
  - intros Hp. unfold TextSentiment.sentiment_polarity_of. rewrite Hp. lra.
  - intros Hp Hn. unfold TextSentiment.sentiment_polarity_of.
    rewrite Hp, Hn. lra.
  - intros (Hp & Hn). unfold TextSentiment.sentiment_polarity_of.
    rewrite Hp, Hn. apply Qmult_0_l.
  - intros H. split; [| reflexivity].
    simpl. unfold TextSentiment.aligned_of.
    destruct (str_in emotion TextSentiment.positive_emotions) eqn:Ep.
    { exfalso. apply H. apply in_or_app. left.
      unfold str_in in Ep. apply existsb_exists in Ep.
      destruct Ep as (x & Hx & E). apply String.eqb_eq in E. now subst. }
    destruct (str_in emotion TextSentiment.negative_emotions) eqn:En.
    { exfalso. apply H. apply in_or_app. right. apply in_or_app. left.
      unfold str_in in En. apply existsb_exists in En.
      destruct En as (x & Hx & E). apply String.eqb_eq in E. now subst. }
    destruct (String.eqb_spec emotion "neutral") as [E | _].
    { exfalso. apply H. subst. simpl. tauto. }
    reflexivity.
Qed.

(** The labels 'Contempt', 'Bored', 'mixed' and 'Very Positive'. *)
Lemma C8_labels_outside_the_vocabularies_witness :
  (unknown_facial "Contempt"
   /\ EmotionDetector.map_facial_to_text_emotion "Contempt" = "neutral")
  /\ (unknown_emotion "Bored"
      /\ exists r g',
           Recommend.generate_response "Bored" 0.7 "low" None [1; 1; 1]%nat
           = Ok (r, g')
           /\ In (Recommend.Response.acknowledgment r)
                 (Recommend.acknowledgment (entry_named "neutral")))
  /\ (unknown_sentiment "mixed"
      /\ (TextSentiment.sentiment_polarity_of "mixed" 0.9 == 0)%Q)
  /\ (contains "positive" (lower "Very Positive") = true
      /\ (TextSentiment.sentiment_polarity_of "Very Positive" 0.9 == 0.9)%Q)
  /\ (~ In "Bored" (TextSentiment.positive_emotions
                    ++ TextSentiment.negative_emotions ++ [ "neutral" ])%list
      /\ TextSentiment.Combined.aligned
           (TextSentiment.combine_emotion_and_sentiment
              (mk_emotion_data (Some "Bored") None None)
              (mk_sentiment_data (Some "mixed") (Some 0.9)))
         = false).
Proof.
  assert (Uf : unknown_facial "Contempt") by reflexivity.
  assert (Ue : unknown_emotion "Bored") by reflexivity.
  assert (Us : unknown_sentiment "mixed") by (split; reflexivity).
  assert (Ul : ~ In "Bored" (TextSentiment.positive_emotions
                             ++ TextSentiment.negative_emotions
                             ++ [ "neutral" ])%list)
    by (simpl; intuition discriminate).
  destruct (C8_labels_outside_the_vocabularies
              "Contempt" "Bored" "mixed" "low" 0.7 0.9 None None None)
    as (Hf & He & _ & _ & Hs & Ha).
  destruct (C8_labels_outside_the_vocabularies
              "Contempt" "Bored" "Very Positive" "low" 0.7 0.9 None None None)
    as (_ & _ & Hp & _).
  split; [split; [exact Uf | exact (Hf Uf)] |].
  split.
  { split; [exact Ue |].
    destruct (He Ue [1; 1; 1]%nat) as (r & g' & Er & Hr & _).
    exists r, g'. split; [exact Er | exact Hr]. }
  split; [split; [exact Us | exact (Hs Us)] |].
  split; [split; [reflexivity | exact (Hp eq_refl)] |].
  split; [exact Ul | exact (proj1 (Ha Ul))].
Defined.

(** ** Alignment of two readings *)

(** The facial and the text label are aligned exactly when they are the same
    string up to letter case. *)
Lemma alignment_of_aligned (facial_emotion text_emotion : string) :
  Main.alignment_of facial_emotion text_emotion = "aligned"
  <-> lower facial_emotion = lower text_emotion.
Proof.
  unfold Main.alignment_of.
  destruct (String.eqb_spec (lower facial_emotion) (lower text_emotion));
    split; intros H; try reflexivity; try assumption;
    try discriminate; contradiction.
Qed.

(** The emotion and the sentiment are aligned exactly when they fall in the
    same of the three buckets. *)
Lemma aligned_of_buckets (emotion sentiment : string) :
  TextSentiment.aligned_of emotion sentiment = true
  <-> (str_in emotion TextSentiment.positive_emotions = true
       /\ contains "positive" (lower sentiment) = true)
      \/ (str_in emotion TextSentiment.negative_emotions = true
          /\ contains "negative" (lower sentiment) = true)
      \/ (emotion = "neutral" /\ contains "neutral" (lower sentiment) = true).
Proof.
  unfold TextSentiment.aligned_of.
  destruct (String.eqb_spec emotion "neutral") as [E | N];
    destruct (str_in emotion TextSentiment.positive_emotions);
    destruct (str_in emotion TextSentiment.negative_emotions);
    destruct (contains "positive" (lower sentiment));
    destruct (contains "negative" (lower sentiment));
    destruct (contains "neutral" (lower sentiment));
    simpl; intuition congruence.
Qed.

(** C1 (defect of the code). The facial label 'Happy' and the text label 'joy'
    are reported as misaligned by [comprehensive_analysis], which compares the
    two labels as strings; bridged by [map_facial_to_text_emotion], the same
    two labels compare as aligned, and the emotion-sentiment comparison of
    [combine_emotion_and_sentiment] puts joy and a positive sentiment in one
    bucket. *)
Theorem C1_happy_joy_reported_misaligned :
  Main.insights_of "Happy" "joy"
  = {| Main.Insights.alignment := "misaligned";
       Main.Insights.interpretation :=
         "Facial expression shows Happy while text conveys joy. This suggests complexity in your emotional state." |}
  /\ Main.combined_insights_step
       (Some (Main.mk_text_analysis
                (mk_emotion_data (Some "joy") (Some 0.9) (Some 0.8))
                (mk_stress_data (Some "low") None)))
       (Some (Main.mk_image_analysis 1 [ Main.mk_face "Happy" 0.95 ]))
       []
     = Ok (Some (Main.insights_of "Happy" "joy"), [])
  /\ EmotionDetector.map_facial_to_text_emotion "Happy" = "joy"
  /\ Main.alignment_of
       (EmotionDetector.map_facial_to_text_emotion "Happy") "joy"
     = "aligned"
  /\ TextSentiment.aligned_of "joy" "positive" = true.
Proof.
  repeat split.
Qed.

(** * The rest of the code *)

(** ** [get_learning_mode_recommendation] *)

Lemma str_in_In (x : string) (xs : list string) :
  str_in x xs = true <-> In x xs.
Proof.
  unfold str_in. rewrite existsb_exists. split.
  - intros (y & Hy & E). apply String.eqb_eq in E. now subst.
  - intros H. exists x. split; [exact H | apply String.eqb_refl].
Qed.

Lemma str_in_spec (x : string) (xs : list string) :
  reflect (In x xs) (str_in x xs).
Proof.
  destruct (str_in x xs) eqn:E; constructor.
  - now apply str_in_In.
  - intros H. apply str_in_In in H. congruence.
Qed.

(** X1. The learning mode as a decision table: intensive exactly for joy,
    surprise or love under low stress; gentle exactly for sadness or fear, or
    under high stress; balanced exactly under moderate stress without sadness
    or fear; standard in every other case. *)
Theorem X1_learning_mode_table (emotion stress_level : string) :
  (Recommend.get_learning_mode_recommendation emotion stress_level
     = intensive_mode
   <-> In emotion [ "joy"; "surprise"; "love" ] /\ stress_level = "low")
  /\ (Recommend.get_learning_mode_recommendation emotion stress_level
        = gentle_mode
      <-> In emotion [ "sadness"; "fear" ] \/ stress_level = "high")
  /\ (Recommend.get_learning_mode_recommendation emotion stress_level
        = balanced_mode
      <-> ~ In emotion [ "sadness"; "fear" ] /\ stress_level = "moderate")
  /\ (Recommend.get_learning_mode_recommendation emotion stress_level
        = standard_mode
      <-> ~ In emotion [ "sadness"; "fear" ]
          /\ stress_level <> "high" /\ stress_level <> "moderate"
          /\ ~ (In emotion [ "joy"; "surprise"; "love" ]
                /\ stress_level = "low")).
Proof.
  unfold Recommend.get_learning_mode_recommendation.
  destruct (str_in_spec emotion [ "joy"; "surprise"; "love" ]) as [Hh | Hh];
    destruct (str_in_spec emotion [ "sadness"; "fear" ]) as [Hl | Hl];
    destruct (String.eqb_spec stress_level "low") as [El | El];
    destruct (String.eqb_spec stress_level "high") as [Eh | Eh];
    destruct (String.eqb_spec stress_level "moderate") as [Em | Em];
    simpl andb; simpl orb; cbv iota;
    try (exfalso; congruence);
    try (exfalso; simpl in Hh, Hl; intuition congruence);
    repeat split; intros; try discriminate; try reflexivity;
    try tauto; try (intuition congruence).
Qed.

(** A neutral reading under low stress gets the standard mode. *)
Lemma X1_learning_mode_table_witness :
  (~ In "neutral" [ "sadness"; "fear" ]
   /\ "low" <> "high" /\ "low" <> "moderate"
   /\ ~ (In "neutral" [ "joy"; "surprise"; "love" ] /\ "low" = "low"))
  /\ Recommend.get_learning_mode_recommendation "neutral" "low"
     = standard_mode.
Proof.
  assert (H : ~ In "neutral" [ "sadness"; "fear" ]
              /\ "low" <> "high" /\ "low" <> "moderate"
              /\ ~ (In "neutral" [ "joy"; "surprise"; "love" ]
                    /\ "low" = "low")).
  { repeat split; try discriminate; simpl; intuition discriminate. }
  split; [exact H |].
  exact (proj2 (proj2 (proj2 (proj2
           (X1_learning_mode_table "neutral" "low")))) H).
Defined.

(** ** Letter case of the emotion label *)

Lemma lower_char_idempotent (c : ascii) : lower_char (lower_char c) = lower_char c.
Proof.
  destruct c as [[] [] [] [] [] [] [] []]; reflexivity.
Qed.

Lemma lower_idempotent (s : string) : lower (lower s) = lower s.
Proof.
  induction s as [| c s IH]; simpl; [reflexivity |].
  now rewrite lower_char_idempotent, IH.
Qed.

(** X2. [generate_response] reads the emotion label up to letter case: two
    labels with the same lower-case form give the same response from the same
    random source. *)
Theorem X2_response_ignores_case_of_emotion
    (emotion1 emotion2 : string) (confidence : float) (stress_level : string)
    (mind_score : option float) (g : rng) :
  lower emotion1 = lower emotion2 ->
  Recommend.generate_response emotion1 confidence stress_level mind_score g
  = Recommend.generate_response emotion2 confidence stress_level mind_score g.
Proof.
  intros E. unfold Recommend.generate_response. rewrite E. reflexivity.
Qed.

(** 'JOY' and 'joy', with a source drawing 1, 2, 0, 4. *)
Lemma X2_response_ignores_case_of_emotion_witness :
  lower "JOY" = lower "joy"
  /\ Recommend.generate_response "JOY" 0.9 "low" None [1; 2; 0; 4]%nat
     = Recommend.generate_response "joy" 0.9 "low" None [1; 2; 0; 4]%nat.
Proof.
  assert (E : lower "JOY" = lower "joy") by reflexivity.
  split; [exact E |].
  exact (X2_response_ignores_case_of_emotion
           "JOY" "joy" 0.9 "low" None [1; 2; 0; 4]%nat E).
Defined.

Lemma selected_entry_known (emotion : string) :
  In (lower emotion) (keys Recommend.emotion_responses) ->
  selected_entry emotion = entry_named (lower emotion).
Proof.
  unfold selected_entry, entry_named, get_default. simpl.
  intros H.
  repeat (destruct H as [<- | H]; [reflexivity |]). contradiction.
Qed.

Lemma wellness_without_bonus (mind_score : float) (emotion stress_level : string) :
  ~ In emotion (keys Recommend.emotion_wellness) ->
  Recommend.generate_wellness_recommendations mind_score emotion stress_level
  = Spec.tier_tips (Spec.mind_score_category mind_score).
Proof.
  intros H. rewrite wellness_by_category.
  assert (E : get Recommend.emotion_wellness emotion = None).
  { simpl in H. simpl.
    repeat match goal with
           | |- context [String.eqb ?a ?b] =>
               destruct (String.eqb_spec a b); [exfalso; apply H; subst; tauto |]
           end.
    reflexivity. }
  rewrite E, app_nil_r. apply firstn_all2. rewrite tier_tips_four. lia.
Qed.

(** X3. The feedback reads the emotion label in two ways.  For a label that
    is sadness, anger, fear or joy only up to letter case, the acknowledgment,
    tip and activity come from the templates of that emotion, while the
    wellness recommendations, which look the label up as it is written, carry
    the four score-tier tips and none of the tips of that emotion. *)
Theorem X3_feedback_bonus_tips_need_exact_case
    (emotion : string) (confidence valence : option float)
    (stress_data : stress_data) :
  In (lower emotion) (keys Recommend.emotion_wellness) ->
  emotion <> lower emotion ->
  succeeds
    (Recommend.get_personalized_feedback
       (mk_emotion_data (Some emotion) confidence valence) stress_data)
    (fun fb =>
       In (Recommend.Feedback.acknowledgment (Recommend.Feedback.empathetic fb))
          (Recommend.acknowledgment (entry_named (lower emotion)))
       /\ In (Recommend.Feedback.tip (Recommend.Feedback.guidance fb))
             (Recommend.learning_tip (entry_named (lower emotion)))
       /\ In (Recommend.Feedback.suggested_activity
                (Recommend.Feedback.actions fb))
             (Recommend.activity (entry_named (lower emotion)))
       /\ length (Recommend.Feedback.wellness_recommendations
                    (Recommend.Feedback.actions fb)) = 4%nat
       /\ forall tip,
            In tip (get_default Recommend.emotion_wellness (lower emotion) []) ->
            ~ In tip (Recommend.Feedback.wellness_recommendations
                        (Recommend.Feedback.actions fb))).
Proof.
  intros Hkey Hcase.
  assert (Hout : ~ In emotion (keys Recommend.emotion_wellness)).
  { intros Hin. apply Hcase. simpl in Hin.
    repeat (destruct Hin as [<- | Hin]; [reflexivity |]). contradiction. }
  assert (Hknown : In (lower emotion) (keys Recommend.emotion_responses)).
  { simpl in Hkey. simpl.
    repeat (destruct Hkey as [<- | Hkey]; [tauto |]). contradiction. }
  eapply succeeds_weaken; [apply get_personalized_feedback_succeeds |].
  simpl or_default.
  intros fb (Ha & _ & Ht & _ & _ & _ & Hc & Hw & _).
  rewrite (selected_entry_known _ Hknown) in Ha, Ht, Hc.
  rewrite Hw, (wellness_without_bonus _ _ _ Hout).
  repeat split; try assumption.
  - apply tier_tips_four.
  - intros tip Htip Hin. simpl in Hkey.
    match type of Hin with
    | In _ (Spec.tier_tips ?c) => destruct c
    end;
      repeat (destruct Hkey as [E | Hkey];
              [rewrite <- E in Htip; simpl in Htip, Hin;
               intuition congruence |]);
      contradiction.
Qed.

(** The label 'Sadness', with both readings otherwise empty. *)
Lemma X3_feedback_bonus_tips_need_exact_case_witness :
  (In (lower "Sadness") (keys Recommend.emotion_wellness)
   /\ "Sadness" <> lower "Sadness")
  /\ exists fb g',
       Recommend.get_personalized_feedback
         (mk_emotion_data (Some "Sadness") None None) no_stress [2; 2; 2]%nat
       = Ok (fb, g')
       /\ In (Recommend.Feedback.acknowledgment
                (Recommend.Feedback.empathetic fb))
             (Recommend.acknowledgment (entry_named "sadness"))
       /\ length (Recommend.Feedback.wellness_recommendations
                    (Recommend.Feedback.actions fb)) = 4%nat.
Proof.
  assert (Hk : In (lower "Sadness") (keys Recommend.emotion_wellness))
    by (left; reflexivity).
  assert (Hc : "Sadness" <> lower "Sadness") by discriminate.
  split; [split; [exact Hk | exact Hc] |].
  destruct (X3_feedback_bonus_tips_need_exact_case
              "Sadness" None None no_stress Hk Hc [2; 2; 2]%nat)
    as (fb & g' & E & Ha & _ & _ & Hl & _).
  exists fb, g'. split; [exact E |]. split; [exact Ha | exact Hl].
Defined.

(** ** Every field of the feedback is filled in *)

Ltac all_filled :=
  repeat (apply Forall_cons; [discriminate |]); apply Forall_nil.

Lemma Forall_In_filled (xs : list string) (x : string) :
  Forall (fun y => y <> "") xs -> In x xs -> x <> "".
Proof.
  intros F Hin. rewrite Forall_forall in F. now apply F.
Qed.

Lemma emotion_entries_filled :
  Forall (fun e => Forall (fun x => x <> "") (Recommend.acknowledgment e)
                   /\ Forall (fun x => x <> "") (Recommend.learning_tip e)
                   /\ Forall (fun x => x <> "") (Recommend.activity e))
         (neutral_entry :: map snd Recommend.emotion_responses).
Proof.
  repeat (apply Forall_cons; [repeat split; all_filled |]). apply Forall_nil.
Qed.

Lemma selected_entry_filled (emotion : string) :
  Forall (fun x => x <> "") (Recommend.acknowledgment (selected_entry emotion))
  /\ Forall (fun x => x <> "") (Recommend.learning_tip (selected_entry emotion))
  /\ Forall (fun x => x <> "") (Recommend.activity (selected_entry emotion)).
Proof.
  pose proof emotion_entries_filled as F.
  rewrite Forall_forall in F. apply F.
  unfold selected_entry.
  destruct (get_default_cases Recommend.emotion_responses (lower emotion)
              neutral_entry) as [-> | Hin]; [now left | now right].
Qed.

Lemma strategy_pools_filled :
  Forall (fun pool => Forall (fun x => x <> "") pool)
         (moderate_pool :: map snd Recommend.learning_strategies).
Proof.
  repeat (apply Forall_cons; [all_filled |]). apply Forall_nil.
Qed.

Lemma selected_pool_filled (stress_level : string) :
  Forall (fun x => x <> "") (selected_pool stress_level).
Proof.
  pose proof strategy_pools_filled as F.
  rewrite Forall_forall in F. apply F.
  unfold selected_pool.
  match goal with
  | |- In (get_default ?d ?k ?v) _ =>
      destruct (get_default_cases d k v) as [-> | Hin]; [now left | now right]
  end.
Qed.

Lemma study_plan_filled (emotion stress_level : string) :
  plan_filled (Recommend._generate_study_plan emotion stress_level).
Proof.
  unfold Recommend._generate_study_plan. simpl.
  repeat match goal with
         | |- context [pair_eqb ?a ?b] => destruct (pair_eqb a b)
         end;
    repeat split; discriminate.
Qed.

Lemma confidence_note_filled (confidence : float) :
  Recommend._get_confidence_note confidence <> "".
Proof.
  unfold Recommend._get_confidence_note. by_cases_on_scores; discriminate.
Qed.

Lemma wellness_filled (mind_score : float) (emotion stress_level : string) :
  Forall (fun x => x <> "")
    (Recommend.generate_wellness_recommendations
       mind_score emotion stress_level).
Proof.
  rewrite wellness_by_category. rewrite <- bonus_tips_table.
  unfold Spec.bonus_tips.
  destruct (Spec.mind_score_category mind_score);
    repeat match goal with
           | |- context [String.eqb ?a ?b] => destruct (String.eqb a b)
           end;
    simpl; all_filled.
Qed.

(** X4. Whatever the two readings contain, the feedback package has no empty
    field: each text is a non-empty string, the strategies and the wellness
    recommendations are non-empty lists of non-empty strings, and the study
    plan has its four texts. *)
Theorem X4_feedback_is_fully_populated
    (emotion_data : emotion_data) (stress_data : stress_data) :
  succeeds
    (Recommend.get_personalized_feedback emotion_data stress_data)
    feedback_filled.
Proof.
  eapply succeeds_weaken; [apply get_personalized_feedback_succeeds |].
  intros fb (Ha & Hn & Ht & Hl & Hin & Hp & Hc & Hw & Hq & He).
  match type of Ha with
  | In _ (Recommend.acknowledgment (selected_entry ?e)) =>
      destruct (selected_entry_filled e) as (Fa & Ft & Fc)
  end.
  unfold feedback_filled. cbv zeta.
  split; [exact (Forall_In_filled _ _ Fa Ha) |].
  split; [rewrite Hn; apply confidence_note_filled |].
  split; [exact (Forall_In_filled _ _ Ft Ht) |].
  split; [eapply nonempty_of_length; exact Hl |].
  split.
  { rewrite Forall_forall. intros x Hx.
    eapply Forall_In_filled; [apply selected_pool_filled | apply Hin, Hx]. }
  split; [rewrite Hp; apply study_plan_filled |].
  split; [exact (Forall_In_filled _ _ Fc Hc) |].
  split.
  { rewrite Hw. intros E.
    match type of E with
    | Recommend.generate_wellness_recommendations ?m ?e ?s = [] =>
        pose proof (wellness_at_least_four m e s) as H4
    end.
    rewrite E in H4. simpl in H4. lia. }
  split; [rewrite Hw; apply wellness_filled |].
  split.
  { eapply Forall_In_filled; [| exact Hq].
    unfold Recommend.motivational_quotes, Recommend._load_motivational_quotes.
    all_filled. }
  rewrite He. unfold Recommend.generate_encouragement.
  by_cases_on_scores; discriminate.
Qed.

(** ** The strategy pool of a documented stress level *)

(** X5. Under the stress levels low, moderate, high and optimal the three
    strategies come from the pool stored under low_stress, moderate_stress,
    high_stress and optimal_flow respectively; the four pools have no entry in
    common, so the strategies tell the stress tier. *)
Theorem X5_documented_stress_levels_use_their_pool
    (emotion : string) (confidence : float) (mind_score : option float) :
  succeeds (Recommend.generate_response emotion confidence "low" mind_score)
    (fun r => incl (Recommend.Response.learning_strategies r)
                   (pool_named "low_stress"))
  /\ succeeds
       (Recommend.generate_response emotion confidence "moderate" mind_score)
       (fun r => incl (Recommend.Response.learning_strategies r)
                      (pool_named "moderate_stress"))
  /\ succeeds (Recommend.generate_response emotion confidence "high" mind_score)
       (fun r => incl (Recommend.Response.learning_strategies r)
                      (pool_named "high_stress"))
  /\ succeeds
       (Recommend.generate_response emotion confidence "optimal" mind_score)
       (fun r => incl (Recommend.Response.learning_strategies r)
                      (pool_named "optimal_flow"))
  /\ NoDup (pool_named "low_stress" ++ pool_named "moderate_stress"
            ++ pool_named "high_stress" ++ pool_named "optimal_flow")%list.
Proof.
  repeat split;
    try (eapply succeeds_weaken; [apply generate_response_succeeds |];
         intros r (_ & _ & _ & _ & Hin & _); exact Hin).
  nodup_strings.
Qed.

(** ** The score the feedback is built from *)

(** X6. The encouragement and the score tier of the wellness recommendations
    of a package are always those of one and the same band, the band of the
    score read from the stress reading; when that reading carries no score the
    package is the one of score 50, with the encouragement and the tips of the
    low band, whatever the emotion and the stress level. *)
Theorem X6_feedback_band_is_consistent
    (emotion_data : emotion_data) (stress_level : option string)
    (score : option mind_score_data) :
  succeeds
    (Recommend.get_personalized_feedback emotion_data
       (mk_stress_data stress_level score))
    (fun fb =>
       let band :=
         Spec.mind_score_category
           (or_default
              (MindScoreData.mind_score (or_default score no_mind_score)) 50) in
       Recommend.Feedback.encouragement (Recommend.Feedback.motivating fb)
       = Spec.encouragement_of band
       /\ firstn 4 (Recommend.Feedback.wellness_recommendations
                      (Recommend.Feedback.actions fb))
          = Spec.tier_tips band)
  /\ succeeds
       (Recommend.get_personalized_feedback emotion_data
          (mk_stress_data stress_level None))
       (fun fb =>
          Recommend.Feedback.encouragement (Recommend.Feedback.motivating fb)
          = "You're making progress! Every step forward counts! 🌱"
          /\ firstn 4 (Recommend.Feedback.wellness_recommendations
                         (Recommend.Feedback.actions fb))
             = [ "🧘 Practice mindfulness or meditation";
                 "💪 Light exercise can boost your mood";
                 "📱 Limit screen time outside of necessary tasks";
                 "😴 Ensure you're getting adequate sleep" ]).
Proof.
  assert (G : forall sc,
             succeeds
               (Recommend.get_personalized_feedback emotion_data
                  (mk_stress_data stress_level sc))
               (fun fb =>
                  let band :=
                    Spec.mind_score_category
                      (or_default
                         (MindScoreData.mind_score
                            (or_default sc no_mind_score)) 50) in
                  Recommend.Feedback.encouragement
                    (Recommend.Feedback.motivating fb)
                  = Spec.encouragement_of band
                  /\ firstn 4 (Recommend.Feedback.wellness_recommendations
                                 (Recommend.Feedback.actions fb))
                     = Spec.tier_tips band)).
  { intros sc.
    eapply succeeds_weaken; [apply get_personalized_feedback_succeeds |].
    simpl. intros fb (_ & _ & _ & _ & _ & _ & _ & Hw & _ & He).
    rewrite He, Hw, encouragement_by_category, wellness_by_category.
    split; [reflexivity |].
    match goal with
    | |- context [Spec.tier_tips ?c] => destruct c
    end;
      match goal with
      | |- context [get ?d ?k] => destruct (get d k) as [tips |]
      end; reflexivity. }
  split; [apply G |].
  eapply succeeds_weaken; [apply (G None) |].
  simpl. intros fb H. exact H.
Qed.

(** ** Emotion and sentiment combined *)

(** X7. An emotion label outside the eight listed ones, a listed one in
    another letter case included, is never reported as aligned, whatever the
    sentiment: the comparison does not fall back to neutral for it. *)
Theorem X7_unlisted_emotion_is_never_aligned
    (emotion : string) (confidence valence : option float)
    (sentiment_data : sentiment_data) :
  ~ In emotion (TextSentiment.positive_emotions
                ++ TextSentiment.negative_emotions ++ [ "neutral" ])%list ->
  TextSentiment.Combined.aligned
    (TextSentiment.combine_emotion_and_sentiment
       (mk_emotion_data (Some emotion) confidence valence) sentiment_data)
  = false.
Proof.
  intros H. simpl. unfold TextSentiment.aligned_of.
  destruct (str_in_spec emotion TextSentiment.positive_emotions) as [Hp | _].
  { exfalso. apply H. apply in_or_app. now left. }
  destruct (str_in_spec emotion TextSentiment.negative_emotions) as [Hn | _].
  { exfalso. apply H. apply in_or_app. right. apply in_or_app. now left. }
  destruct (String.eqb_spec emotion "neutral") as [E | _].
  { exfalso. apply H. subst. simpl. tauto. }
  reflexivity.
Qed.

(** The capitalised label 'Joy' against a positive sentiment. *)
Lemma X7_unlisted_emotion_is_never_aligned_witness :
  ~ In "Joy" (TextSentiment.positive_emotions
              ++ TextSentiment.negative_emotions ++ [ "neutral" ])%list
  /\ TextSentiment.Combined.aligned
       (TextSentiment.combine_emotion_and_sentiment
          (mk_emotion_data (Some "Joy") (Some 0.9) (Some 0.8))
          (mk_sentiment_data (Some "positive") (Some 0.9)))
     = false.
Proof.
  assert (H : ~ In "Joy" (TextSentiment.positive_emotions
                          ++ TextSentiment.negative_emotions
                          ++ [ "neutral" ])%list).
  { simpl. intuition discriminate. }
  split; [exact H |].
  exact (X7_unlisted_emotion_is_never_aligned
           "Joy" (Some 0.9) (Some 0.8)
           (mk_sentiment_data (Some "positive") (Some 0.9)) H).
Defined.

(** X8. With a valence between -1 and 1 and a sentiment confidence between 0
    and 1 (a missing one counting as 0), the sentiment polarity lies between
    minus the confidence and the confidence, and the overall mood, before it
    is rounded to three decimals, lies between -1 and 1. *)
Theorem X8_overall_mood_is_bounded
    (emotion_data : emotion_data) (sentiment_data : sentiment_data) :
  (-1 <= or_default (EmotionData.valence emotion_data) 0.0 <= 1)%Q ->
  (0 <= or_default (SentimentData.confidence sentiment_data) 0.0 <= 1)%Q ->
  let combined :=
    TextSentiment.combine_emotion_and_sentiment emotion_data sentiment_data in
  (- or_default (SentimentData.confidence sentiment_data) 0.0
   <= TextSentiment.Combined.sentiment_polarity combined
   <= or_default (SentimentData.confidence sentiment_data) 0.0)%Q
  /\ (-1 <= TextSentiment.Combined.overall_mood_exact combined <= 1)%Q.
Proof.
  intros Hv Hc. simpl.
  set (v := or_default (EmotionData.valence emotion_data) 0.0) in *.
  set (c := or_default (SentimentData.confidence sentiment_data) 0.0) in *.
  unfold TextSentiment.sentiment_polarity_of.
  destruct (contains "positive" _); [| destruct (contains "negative" _)];
    split; lra.
Qed.

(** Valence -0.7 with a negative sentiment of confidence 0.9. *)
Lemma X8_overall_mood_is_bounded_witness :
  (-1 <= -0.7 <= 1)%Q /\ (0 <= 0.9 <= 1)%Q
  /\ (-1 <= TextSentiment.Combined.overall_mood_exact
              (TextSentiment.combine_emotion_and_sentiment
                 (mk_emotion_data (Some "sadness") (Some 0.8) (Some (-0.7)))
                 (mk_sentiment_data (Some "negative") (Some 0.9)))
      <= 1)%Q.
Proof.
  assert (Hv : (-1 <= -0.7 <= 1)%Q) by (split; discriminate).
  assert (Hc : (0 <= 0.9 <= 1)%Q) by (split; discriminate).
  split; [exact Hv |]. split; [exact Hc |].
  exact (proj2 (X8_overall_mood_is_bounded
                  (mk_emotion_data (Some "sadness") (Some 0.8) (Some (-0.7)))
                  (mk_sentiment_data (Some "negative") (Some 0.9)) Hv Hc)).
Defined.

(** ** [TextSentimentAnalyzer.analyze] *)

Lemma max_from_In {A} (key : A -> float) (xs : list A) : forall best,
  In (max_from key best xs) (best :: xs).
Proof.
  induction xs as [| x t IH]; intros best; simpl; [now left |].
  destruct (lt (key best) (key x)).
  - right. apply IH.
  - destruct (IH best) as [E | Hin]; [now left | right; now right].
Qed.

Lemma max_from_above {A} (key : A -> float) (xs : list A) : forall best,
  (key best <= key (max_from key best xs))%Q
  /\ forall x, In x xs -> (key x <= key (max_from key best xs))%Q.
Proof.
  induction xs as [| x t IH]; intros best; simpl.
  - split; [lra | contradiction].
  - destruct (lt_spec (key best) (key x)) as [Hlt | Hge].
    + destruct (IH x) as (Hx & Ht). split; [lra |].
      intros y [<- | Hy]; [exact Hx | now apply Ht].
    + destruct (IH best) as (Hb & Ht). split; [exact Hb |].
      intros y [<- | Hy]; [lra | now apply Ht].
Qed.

Lemma strip_empty : strip "" = "".
Proof.
  reflexivity.
Qed.

Lemma not_blank_not_empty (text : string) :
  strip text <> "" ->
  String.eqb text "" || String.eqb (strip text) "" = false.
Proof.
  intros H.
  destruct (String.eqb_spec text "") as [-> | _]; [now rewrite strip_empty in H |].
  destruct (String.eqb_spec (strip text) "") as [E | _]; [contradiction |].
  reflexivity.
Qed.

(** X9. A text that is empty or all whitespace is analysed without the
    pipeline: the result is the neutral sentiment with confidence 0.0 and no
    scores, and its polarity is 0.0, whatever the pipeline would return. *)
Theorem X9_blank_text_is_neutral
    (round3 : float -> float)
    (pipeline : string -> list TextSentiment.Analyzed.pipeline_entry)
    (text : string) (g : rng) :
  strip text = "" ->
  TextSentiment.analyze round3 pipeline text g
  = Ok ({| TextSentiment.Analyzed.sentiment := "neutral";
           TextSentiment.Analyzed.confidence := 0.0;
           TextSentiment.Analyzed.scores := [] |}, g)
  /\ TextSentiment.get_sentiment_polarity round3 pipeline text g = Ok (0.0, g).
Proof.
  intros E.
  assert (Ea : TextSentiment.analyze round3 pipeline text g
               = Ok ({| TextSentiment.Analyzed.sentiment := "neutral";
                        TextSentiment.Analyzed.confidence := 0.0;
                        TextSentiment.Analyzed.scores := [] |}, g)).
  { unfold TextSentiment.analyze. rewrite E.
    change (String.eqb "" "") with true.
    rewrite orb_true_r. reflexivity. }
  split; [exact Ea |].
  unfold TextSentiment.get_sentiment_polarity, bind. rewrite Ea. reflexivity.
Qed.

(** A text of two spaces and a tab, with a pipeline that returns nothing. *)
Lemma X9_blank_text_is_neutral_witness :
  strip "  	" = ""
  /\ TextSentiment.get_sentiment_polarity (fun x => x) (fun _ => []) "  	" []
     = Ok (0.0, []).
Proof.
  assert (E : strip "  	" = "") by reflexivity.
  split; [exact E |].
  exact (proj2 (X9_blank_text_is_neutral
                  (fun x => x) (fun _ => []) "  	" [] E)).
Defined.

(** X10. For a text that is not blank, when the pipeline returns the scores of
    all labels and there is at least one, the analysis returns normally: the
    sentiment is the lower-cased label of an item whose score no other item
    exceeds, the confidence is that score rounded, and the sentiment is
    already in lower case, so lower-casing it again changes nothing. *)
Theorem X10_analysis_reports_a_top_label
    (round3 : float -> float)
    (pipeline : string -> list TextSentiment.Analyzed.pipeline_entry)
    (text : string) (item : TextSentiment.Analyzed.label_score)
    (items : list TextSentiment.Analyzed.label_score)
    (rest : list TextSentiment.Analyzed.pipeline_entry) (g : rng) :
  strip text <> "" ->
  pipeline text = TextSentiment.Analyzed.AllLabels (item :: items) :: rest ->
  exists dominant result,
    TextSentiment.analyze round3 pipeline text g = Ok (result, g)
    /\ In dominant (item :: items)
    /\ (forall other, In other (item :: items) ->
          (TextSentiment.Analyzed.score other
           <= TextSentiment.Analyzed.score dominant)%Q)
    /\ TextSentiment.Analyzed.sentiment result
       = lower (TextSentiment.Analyzed.label dominant)
    /\ TextSentiment.Analyzed.confidence result
       = round3 (TextSentiment.Analyzed.score dominant)
    /\ lower (TextSentiment.Analyzed.sentiment result)
       = TextSentiment.Analyzed.sentiment result.
Proof.
  intros Hb Hp.
  exists (max_from TextSentiment.Analyzed.score item items).
  eexists. split.
  { unfold TextSentiment.analyze. rewrite (not_blank_not_empty _ Hb), Hp.
    reflexivity. }
  split; [apply max_from_In |]. split.
  { destruct (max_from_above TextSentiment.Analyzed.score items item)
      as (Hi & Ht).
    intros other [<- | Hin]; [exact Hi | exact (Ht _ Hin)]. }
  simpl. repeat split. apply lower_idempotent.
Qed.

(** Three labels, two of them sharing the top score. *)
Lemma X10_analysis_reports_a_top_label_witness :
  strip " fine, thanks " <> ""
  /\ exists dominant result,
       TextSentiment.analyze (fun x => x)
         (fun _ =>
            [ TextSentiment.Analyzed.AllLabels
                [ TextSentiment.Analyzed.mk_label_score "Negative" 0.2;
                  TextSentiment.Analyzed.mk_label_score "POSITIVE" 0.4;
                  TextSentiment.Analyzed.mk_label_score "neutral" 0.4 ] ])
         " fine, thanks " []
       = Ok (result, [])
       /\ TextSentiment.Analyzed.sentiment result
          = lower (TextSentiment.Analyzed.label dominant).
Proof.
  assert (Hb : strip " fine, thanks " <> "") by discriminate.
  split; [exact Hb |].
  destruct (X10_analysis_reports_a_top_label
              (fun x => x)
              (fun _ =>
                 [ TextSentiment.Analyzed.AllLabels
                     [ TextSentiment.Analyzed.mk_label_score "Negative" 0.2;
                       TextSentiment.Analyzed.mk_label_score "POSITIVE" 0.4;
                       TextSentiment.Analyzed.mk_label_score "neutral" 0.4 ] ])
              " fine, thanks " _ _ [] [] Hb eq_refl)
    as (dominant & result & E & _ & _ & Hs & _).
  exists dominant, result. split; [exact E | exact Hs].
Defined.

(** X11. For a text that is not blank, the analysis fails when the pipeline
    gives it nothing to read: with [IndexError] when the pipeline returns an
    empty list, with [ValueError] when the list of label scores is empty. *)
Theorem X11_analysis_fails_on_empty_pipeline_output
    (round3 : float -> float)
    (pipeline : string -> list TextSentiment.Analyzed.pipeline_entry)
    (text : string)
    (rest : list TextSentiment.Analyzed.pipeline_entry) :
  strip text <> "" ->
  (pipeline text = [] ->
   raises (TextSentiment.analyze round3 pipeline text) IndexError
   /\ raises (TextSentiment.get_sentiment_polarity round3 pipeline text)
             IndexError)
  /\ (pipeline text = TextSentiment.Analyzed.AllLabels [] :: rest ->
      raises (TextSentiment.analyze round3 pipeline text) ValueError
      /\ raises (TextSentiment.get_sentiment_polarity round3 pipeline text)
                ValueError).
Proof.
  intros Hb. split; intros Hp; split; intros g;
    unfold TextSentiment.get_sentiment_polarity, TextSentiment.analyze, bind;
    rewrite (not_blank_not_empty _ Hb), Hp; reflexivity.
Qed.

(** The text 'ok' with a pipeline that returns an empty list. *)
Lemma X11_analysis_fails_on_empty_pipeline_output_witness :
  strip "ok" <> ""
  /\ TextSentiment.analyze (fun x => x) (fun _ => []) "ok" [] = Raise IndexError.
Proof.
  assert (Hb : strip "ok" <> "") by discriminate.
  split; [exact Hb |].
  exact (proj1 (proj1 (X11_analysis_fails_on_empty_pipeline_output
                         (fun x => x) (fun _ => []) "ok" [] Hb) eq_refl) []).
Defined.

(** X12. Whenever the analysis of a text returns, its polarity returns too and
    is the polarity [combine_emotion_and_sentiment] computes from the same
    analysis: the two polarity rules agree. *)
Theorem X12_polarity_rules_agree
    (round3 : float -> float)
    (pipeline : string -> list TextSentiment.Analyzed.pipeline_entry)
    (text : string) (emotion_data : emotion_data)
    (g g' : rng) (result : TextSentiment.Analyzed.analyzed) :
  TextSentiment.analyze round3 pipeline text g = Ok (result, g') ->
  exists polarity,
    TextSentiment.get_sentiment_polarity round3 pipeline text g
    = Ok (polarity, g')
    /\ (polarity
        == TextSentiment.Combined.sentiment_polarity
             (TextSentiment.combine_emotion_and_sentiment
                emotion_data (TextSentiment.sentiment_data_of result)))%Q.
Proof.
  intros E.
  unfold TextSentiment.get_sentiment_polarity, bind. rewrite E.
  simpl TextSentiment.Combined.sentiment_polarity.
  unfold TextSentiment.sentiment_polarity_of, ret.
  destruct (contains "positive" _); [| destruct (contains "negative" _)];
    eexists; (split; [reflexivity | lra]).
Qed.

(** One negative label of score 0.8. *)
Lemma X12_polarity_rules_agree_witness :
  TextSentiment.analyze (fun x => x)
    (fun _ =>
       [ TextSentiment.Analyzed.OneLabel
           (TextSentiment.Analyzed.mk_label_score "NEGATIVE" 0.8) ])
    "not good" []
  = Ok ({| TextSentiment.Analyzed.sentiment := "negative";
           TextSentiment.Analyzed.confidence := 0.8;
           TextSentiment.Analyzed.scores := [ ("NEGATIVE", 0.8) ] |}, [])
  /\ exists polarity,
       TextSentiment.get_sentiment_polarity (fun x => x)
         (fun _ =>
            [ TextSentiment.Analyzed.OneLabel
                (TextSentiment.Analyzed.mk_label_score "NEGATIVE" 0.8) ])
         "not good" []
       = Ok (polarity, [])
       /\ (polarity == - 0.8)%Q.
Proof.
  assert (E : TextSentiment.analyze (fun x => x)
                (fun _ =>
                   [ TextSentiment.Analyzed.OneLabel
                       (TextSentiment.Analyzed.mk_label_score "NEGATIVE" 0.8) ])
                "not good" []
              = Ok ({| TextSentiment.Analyzed.sentiment := "negative";
                       TextSentiment.Analyzed.confidence := 0.8;
                       TextSentiment.Analyzed.scores := [ ("NEGATIVE", 0.8) ] |},
                    [])) by reflexivity.
  split; [exact E |].
  destruct (X12_polarity_rules_agree _ _ _ no_emotion _ _ _ E)
    as (polarity & Ep & Hq).
  exists polarity. split; [exact Ep |].
  rewrite Hq. reflexivity.
Defined.

(** ** The label bridge and the comparison of the two labels *)

(** X13. Whatever facial label it is given, the bridge returns one of the text
    emotions the service lists, and never love; the returned label is a key of
    the emotion table in exactly this spelling, so the response to a bridged
    label is drawn from the templates of that label. *)
Theorem X13_bridge_returns_a_listed_text_emotion (facial_emotion : string) :
  In (EmotionDetector.map_facial_to_text_emotion facial_emotion)
     Main.text_emotions
  /\ EmotionDetector.map_facial_to_text_emotion facial_emotion <> "love"
  /\ mem Recommend.emotion_responses
         (EmotionDetector.map_facial_to_text_emotion facial_emotion) = true
  /\ selected_entry (EmotionDetector.map_facial_to_text_emotion facial_emotion)
     = entry_named (EmotionDetector.map_facial_to_text_emotion facial_emotion).
Proof.
  unfold EmotionDetector.map_facial_to_text_emotion, get_default. simpl.
  repeat match goal with
         | |- context [String.eqb ?a ?b] => destruct (String.eqb a b)
         end;
    (split; [simpl; tauto |]); (split; [discriminate |]);
    split; reflexivity.
Qed.

(** X14. Compared as [comprehensive_analysis] compares them, the facial labels
    Fear, Surprise, Disgust and Neutral give the same verdict as their bridged
    forms against every text label; the facial labels Happy, Sad and Angry are
    misaligned with every listed text emotion, in any letter case, their own
    counterpart included. *)
Theorem X14_raw_comparison_by_facial_label
    (facial_emotion text_emotion : string) :
  (In facial_emotion [ "Fear"; "Surprise"; "Disgust"; "Neutral" ] ->
   Main.alignment_of facial_emotion text_emotion
   = Main.alignment_of
       (EmotionDetector.map_facial_to_text_emotion facial_emotion)
       text_emotion)
  /\ (In facial_emotion [ "Happy"; "Sad"; "Angry" ] ->
      In (lower text_emotion) Main.text_emotions ->
      Main.alignment_of facial_emotion text_emotion = "misaligned").
Proof.
  split.
  - intros H. simpl in H.
    repeat (destruct H as [<- | H]; [reflexivity |]). contradiction.
  - intros H Ht. unfold Main.alignment_of. simpl in H, Ht.
    repeat (destruct H as [<- | H];
            [repeat (destruct Ht as [<- | Ht]; [reflexivity |]);
             contradiction |]).
    contradiction.
Qed.

(** 'Sad' against 'Sadness', and 'Fear' against 'FEAR'. *)
Lemma X14_raw_comparison_by_facial_label_witness :
  (In "Sad" [ "Happy"; "Sad"; "Angry" ]
   /\ In (lower "Sadness") Main.text_emotions
   /\ Main.alignment_of "Sad" "Sadness" = "misaligned")
  /\ (In "Fear" [ "Fear"; "Surprise"; "Disgust"; "Neutral" ]
      /\ Main.alignment_of "Fear" "FEAR"
         = Main.alignment_of
             (EmotionDetector.map_facial_to_text_emotion "Fear") "FEAR").
Proof.
  assert (H1 : In "Sad" [ "Happy"; "Sad"; "Angry" ]) by (right; left; reflexivity).
  assert (H2 : In (lower "Sadness") Main.text_emotions)
    by (right; left; reflexivity).
  assert (H3 : In "Fear" [ "Fear"; "Surprise"; "Disgust"; "Neutral" ])
    by (left; reflexivity).
  split.
  - split; [exact H1 |]. split; [exact H2 |].
    exact (proj2 (X14_raw_comparison_by_facial_label "Sad" "Sadness") H1 H2).
  - split; [exact H3 |].
    exact (proj1 (X14_raw_comparison_by_facial_label "Fear" "FEAR") H3).
Defined.

(** ** [comprehensive_analysis] *)

Lemma raises_after {A B} (m : M A) (f : A -> M B) (P : A -> Prop) (e : exn) :
  succeeds m P -> (forall a, P a -> raises (f a) e) -> raises (bind m f) e.
Proof.
  intros Hm Hf g. unfold bind.
  destruct (Hm g) as (a & g' & E & Pa). rewrite E. apply (Hf a Pa).
Qed.

Lemma raises_first {A B} (m : M A) (f : A -> M B) (e : exn) :
  raises m e -> raises (bind m f) e.
Proof.
  intros Hm g. unfold bind. now rewrite (Hm g).
Qed.

(** X15. When a text analysis and an image analysis with at least one face are
    supplied, the combined insights compare the text emotion with the first
    face only: the other faces and the exact face count do not matter. *)
Theorem X15_insights_read_the_first_face_only
    (text : Main.text_analysis) (first : Main.face)
    (others1 others2 : list Main.face) (count1 count2 : nat) (g : rng) :
  (0 < count1)%nat -> (0 < count2)%nat ->
  Main.combined_insights_step
    (Some text) (Some (Main.mk_image_analysis count1 (first :: others1))) g
  = Main.combined_insights_step
      (Some text) (Some (Main.mk_image_analysis count2 (first :: others2))) g.
Proof.
  intros H1 H2. unfold Main.combined_insights_step. simpl.
  destruct count1 as [| n1]; [lia |]. destruct count2 as [| n2]; [lia |].
  reflexivity.
Qed.

(** A happy first face, followed by a sad one or by nothing. *)
Lemma X15_insights_read_the_first_face_only_witness :
  ((0 < 2)%nat /\ (0 < 1)%nat)
  /\ Main.combined_insights_step
       (Some (Main.mk_text_analysis
                (mk_emotion_data (Some "joy") None None) no_stress))
       (Some (Main.mk_image_analysis 2
                [ Main.mk_face "Happy" 0.9; Main.mk_face "Sad" 0.8 ])) []
     = Main.combined_insights_step
         (Some (Main.mk_text_analysis
                  (mk_emotion_data (Some "joy") None None) no_stress))
         (Some (Main.mk_image_analysis 1 [ Main.mk_face "Happy" 0.9 ])) [].
Proof.
  assert (H2 : (0 < 2)%nat) by lia. assert (H1 : (0 < 1)%nat) by lia.
  split; [split; [exact H2 | exact H1] |].
  exact (X15_insights_read_the_first_face_only
           _ (Main.mk_face "Happy" 0.9) [ Main.mk_face "Sad" 0.8 ] [] 2 1 []
           H2 H1).
Defined.

(** X16. A text analysis whose emotion reading has no dominant emotion is
    enough for the feedback, which takes it as neutral, but not for the
    combined insights: as soon as an image with a face comes with it,
    [comprehensive_analysis] fails with [KeyError] instead of answering (the
    endpoint reports the exception as a server error), while without the
    image it returns the recommendations. *)
Theorem X16_missing_dominant_emotion_fails_with_a_face
    (text : Main.text_analysis) (image : Main.image_analysis) :
  EmotionData.dominant_emotion (Main.emotion_analysis text) = None ->
  (0 < Main.faces_detected image)%nat ->
  Main.faces image <> [] ->
  raises (Main.combined_insights_step (Some text) (Some image))
         (KeyError "dominant_emotion")
  /\ raises (Main.comprehensive_analysis (Some text) (Some image))
            (KeyError "dominant_emotion")
  /\ succeeds (Main.comprehensive_analysis (Some text) None)
       (fun r => Main.Results.recommendations r <> None
                 /\ Main.Results.combined_insights r = None).
Proof.
  intros Hd Hn Hf.
  assert (R : raises (Main.combined_insights_step (Some text) (Some image))
                     (KeyError "dominant_emotion")).
  { intros g. unfold Main.combined_insights_step.
    destruct (Main.faces_detected image) as [| n]; [lia |]. simpl.
    destruct (Main.faces image) as [| f t]; [congruence |].
    rewrite Hd. reflexivity. }
  split; [exact R |]. split.
  - intros g. unfold Main.comprehensive_analysis, bind. rewrite (R g).
    reflexivity.
  - unfold Main.comprehensive_analysis. simpl.
    eapply succeeds_bind; [apply (succeeds_ret _ (eq None)); reflexivity |].
    intros insights <-.
    eapply succeeds_bind.
    { eapply succeeds_bind; [apply get_personalized_feedback_succeeds |].
      intros fb _. apply (succeeds_ret _ (fun o => o <> None)). discriminate. }
    intros recs Hr. apply succeeds_ret. split; [exact Hr | reflexivity].
Qed.

(** An emotion reading with a confidence only, and one happy face. *)
Lemma X16_missing_dominant_emotion_fails_with_a_face_witness :
  (EmotionData.dominant_emotion
     (Main.emotion_analysis
        (Main.mk_text_analysis (mk_emotion_data None (Some 0.8) None)
                               no_stress)) = None
   /\ (0 < 1)%nat /\ [ Main.mk_face "Happy" 0.9 ] <> [])
  /\ Main.comprehensive_analysis
       (Some (Main.mk_text_analysis (mk_emotion_data None (Some 0.8) None)
                                    no_stress))
       (Some (Main.mk_image_analysis 1 [ Main.mk_face "Happy" 0.9 ])) []
     = Raise (KeyError "dominant_emotion").
Proof.
  assert (H1 : (0 < 1)%nat) by lia.
  assert (H2 : [ Main.mk_face "Happy" 0.9 ] <> []) by discriminate.
  split; [split; [reflexivity | split; [exact H1 | exact H2]] |].
  exact (proj1 (proj2
           (X16_missing_dominant_emotion_fails_with_a_face
              (Main.mk_text_analysis (mk_emotion_data None (Some 0.8) None)
                                     no_stress)
              (Main.mk_image_analysis 1 [ Main.mk_face "Happy" 0.9 ])
              eq_refl H1 H2)) []).
Defined.

(** ** [analyze_text] *)

(** X17. When recommendations are requested, [analyze_text] needs both the
    dominant emotion and the stress level: if either is missing it fails with
    [KeyError] (which the endpoint reports as a server error), although the
    feedback itself would have been built from the defaults; if both are
    there it returns the feedback together with the
    learning mode of exactly these two labels.  When recommendations are not
    requested it returns whatever the readings contain. *)
Theorem X17_text_analysis_needs_both_labels_for_recommendations
    (result : Main.text_analysis) (sentiment : sentiment_data)
    (include_sentiment : bool) :
  (EmotionData.dominant_emotion (Main.emotion_analysis result) = None ->
   raises (Main.analyze_text result sentiment include_sentiment true)
          (KeyError "dominant_emotion"))
  /\ (EmotionData.dominant_emotion (Main.emotion_analysis result) <> None ->
      StressData.stress_level (Main.stress_analysis result) = None ->
      raises (Main.analyze_text result sentiment include_sentiment true)
             (KeyError "stress_level"))
  /\ (forall emotion stress_level,
        EmotionData.dominant_emotion (Main.emotion_analysis result)
        = Some emotion ->
        StressData.stress_level (Main.stress_analysis result)
        = Some stress_level ->
        succeeds (Main.analyze_text result sentiment include_sentiment true)
          (fun r =>
             Main.TextResponse.recommendations r <> None
             /\ Main.TextResponse.learning_mode r
                = Some (Recommend.get_learning_mode_recommendation
                          emotion stress_level)))
  /\ succeeds (Main.analyze_text result sentiment include_sentiment false)
       (fun r =>
          Main.TextResponse.recommendations r = None
          /\ Main.TextResponse.learning_mode r = None
          /\ (Main.TextResponse.combined_analysis r <> None
              <-> include_sentiment = true)).
Proof.
  split; [| split; [| split]].
  - intros Hd. unfold Main.analyze_text.
    apply raises_first.
    eapply raises_after; [apply get_personalized_feedback_succeeds |].
    intros fb _ g. unfold bind. rewrite Hd. reflexivity.
  - intros Hd Hs. unfold Main.analyze_text.
    destruct (EmotionData.dominant_emotion (Main.emotion_analysis result))
      as [emotion |]; [| congruence].
    apply raises_first.
    eapply raises_after; [apply get_personalized_feedback_succeeds |].
    intros fb _ g. unfold bind. simpl. rewrite Hs. reflexivity.
  - intros emotion stress_level Hd Hs. unfold Main.analyze_text.
    rewrite Hd, Hs.
    eapply succeeds_bind.
    { eapply succeeds_bind; [apply get_personalized_feedback_succeeds |].
      intros fb _. simpl.
      apply (succeeds_ret _
               (fun p => fst p <> None
                         /\ snd p
                            = Some (Recommend.get_learning_mode_recommendation
                                      emotion stress_level))).
      split; [discriminate | reflexivity]. }
    intros p (Hr & Hm). apply succeeds_ret. simpl. split; assumption.
  - unfold Main.analyze_text.
    eapply succeeds_bind;
      [apply (succeeds_ret _ (eq (None, None))); reflexivity |].
    intros p <-. apply succeeds_ret. simpl.
    split; [reflexivity |]. split; [reflexivity |].
    destruct include_sentiment; simpl; split; intros H;
      try discriminate; try reflexivity; congruence.
Qed.

(** A reading with a stress level and no dominant emotion. *)
Lemma X17_text_analysis_needs_both_labels_for_recommendations_witness :
  EmotionData.dominant_emotion
    (Main.emotion_analysis
       (Main.mk_text_analysis no_emotion (mk_stress_data (Some "low") None)))
  = None
  /\ Main.analyze_text
       (Main.mk_text_analysis no_emotion (mk_stress_data (Some "low") None))
       no_sentiment true true [3; 1; 4]%nat
     = Raise (KeyError "dominant_emotion").
Proof.
  split; [reflexivity |].
  exact (proj1 (X17_text_analysis_needs_both_labels_for_recommendations
                  (Main.mk_text_analysis no_emotion
                     (mk_stress_data (Some "low") None))
                  no_sentiment true) eq_refl [3; 1; 4]%nat).
Defined.

(** ** [FacialEmotionDetector.predict_emotion] *)

Lemma argmax_from_first_maximum (xs : list float) :
  forall (pre : list float) (best_i : nat) (best : float),
    first_maximum pre best_i best ->
    exists v,
      first_maximum (pre ++ xs)
        (argmax_from best_i best (length pre) xs) v.
Proof.
  induction xs as [| x t IH]; intros pre best_i best (Hn & Hmax & Hfirst).
  - simpl. rewrite app_nil_r. exists best. repeat split; assumption.
  - simpl.
    assert (Hi : (best_i < length pre)%nat).
    { apply nth_error_Some. congruence. }
    replace (pre ++ x :: t)%list with ((pre ++ [x]) ++ t)%list
      by (rewrite <- app_assoc; reflexivity).
    replace (S (length pre)) with (length (pre ++ [x])%list)
      by (rewrite length_app; simpl; lia).
    destruct (lt_spec best x) as [Hlt | Hge]; apply IH.
    + split; [| split].
      * rewrite nth_error_app2 by lia. now rewrite Nat.sub_diag.
      * intros y Hy. apply in_app_or in Hy.
        destruct Hy as [Hy | [<- | []]]; [| lra].
        specialize (Hmax y Hy). lra.
      * intros j y Hj Hy. rewrite nth_error_app1 in Hy by lia.
        assert (In y pre) by (eapply nth_error_In; eassumption).
        specialize (Hmax y H). lra.
    + split; [| split].
      * rewrite nth_error_app1 by lia. exact Hn.
      * intros y Hy. apply in_app_or in Hy.
        destruct Hy as [Hy | [<- | []]]; [now apply Hmax | lra].
      * intros j y Hj Hy. rewrite nth_error_app1 in Hy by lia.
        eapply Hfirst; eassumption.
Qed.

Lemma argmax_first_maximum (x : float) (t : list float) :
  exists v, first_maximum (x :: t) (argmax_from 0 x 1 t) v.
Proof.
  apply (argmax_from_first_maximum t [x] 0%nat x).
  split; [reflexivity |]. split.
  - intros y [<- | []]. lra.
  - intros j y Hj. lia.
Qed.

Lemma first_maximum_unique (xs : list float) (r1 r2 : nat) (v1 v2 : float) :
  first_maximum xs r1 v1 -> first_maximum xs r2 v2 -> r1 = r2.
Proof.
  intros (N1 & M1 & F1) (N2 & M2 & F2).
  destruct (Nat.lt_trichotomy r1 r2) as [H | [H | H]]; [| exact H |].
  - pose proof (F2 _ _ H N1) as Hlt.
    pose proof (M1 v2 (nth_error_In _ _ N2)). lra.
  - pose proof (F1 _ _ H N2) as Hlt.
    pose proof (M2 v1 (nth_error_In _ _ N1)). lra.
Qed.

Lemma insert_desc_Permutation {A} (key : A -> float) (x : A) (xs : list A) :
  Permutation (insert_desc key x xs) (x :: xs).
Proof.
  induction xs as [| y t IH]; simpl; [reflexivity |].
  destruct (lt (key x) (key y)); [| reflexivity].
  rewrite IH. apply perm_swap.
Qed.

Lemma sorted_desc_Permutation {A} (key : A -> float) (xs : list A) :
  Permutation (sorted_desc key xs) xs.
Proof.
  induction xs as [| x t IH]; simpl; [reflexivity |].
  rewrite insert_desc_Permutation. now constructor.
Qed.

Lemma insert_desc_sorted {A} (key : A -> float) (x : A) (xs : list A) :
  StronglySorted (fun a b => (key b <= key a)%Q) xs ->
  StronglySorted (fun a b => (key b <= key a)%Q) (insert_desc key x xs).
Proof.
  induction xs as [| y t IH]; intros S; simpl.
  - constructor; constructor.
  - inversion S as [| ? ? St Fy]; subst.
    destruct (lt_spec (key x) (key y)) as [Hlt | Hge].
    + constructor; [now apply IH |].
      rewrite (insert_desc_Permutation key x t).
      constructor; [lra | exact Fy].
    + constructor; [exact S |].
      constructor; [lra |].
      rewrite Forall_forall in Fy |- *. intros z Hz.
      specialize (Fy z Hz). lra.
Qed.

Lemma sorted_desc_sorted {A} (key : A -> float) (xs : list A) :
  StronglySorted (fun a b => (key b <= key a)%Q) (sorted_desc key xs).
Proof.
  induction xs as [| x t IH]; simpl; [constructor |].
  now apply insert_desc_sorted.
Qed.

(** The head of a stable descending sort is the first maximal element. *)
Lemma sorted_desc_head {A} (key : A -> float) (xs : list A) :
  xs <> [] ->
  exists r h,
    hd_error (sorted_desc key xs) = Some h
    /\ nth_error xs r = Some h
    /\ first_maximum (map key xs) r (key h).
Proof.
  induction xs as [| x t IH]; [congruence | intros _].
  destruct t as [| x' t'].
  - exists 0%nat, x. simpl. split; [reflexivity |]. split; [reflexivity |].
    split; [reflexivity |]. split.
    + intros y [<- | []]. lra.
    + intros j y Hj. lia.
  - destruct (IH ltac:(discriminate)) as (r & h & Hh & Hn & Hk & Hmax & Hfirst).
    change (sorted_desc key (x :: x' :: t'))
      with (insert_desc key x (sorted_desc key (x' :: t'))).
    destruct (sorted_desc key (x' :: t')) as [| h' rest] eqn:Es;
      [discriminate |].
    simpl in Hh. injection Hh as ->.
    simpl insert_desc.
    destruct (lt_spec (key x) (key h)) as [Hlt | Hge].
    + exists (S r), h. split; [reflexivity |]. split; [exact Hn |].
      split; [exact Hk |]. split.
      * intros y [<- | Hy]; [lra | now apply Hmax].
      * intros [| j] y Hj Hy.
        -- simpl in Hy. injection Hy as <-. exact Hlt.
        -- simpl in Hy. apply (Hfirst j); [lia | exact Hy].
    + exists 0%nat, x. split; [reflexivity |]. split; [reflexivity |].
      split; [reflexivity |]. split.
      * intros y [<- | Hy]; [lra |]. specialize (Hmax y Hy). lra.
      * intros j y Hj. lia.
Qed.

Lemma labelled_seven (p0 p1 p2 p3 p4 p5 p6 : float) :
  map EmotionDetector.Prediction.probability
      (labelled [p0; p1; p2; p3; p4; p5; p6])
  = [p0; p1; p2; p3; p4; p5; p6]
  /\ map EmotionDetector.Prediction.emotion
         (labelled [p0; p1; p2; p3; p4; p5; p6])
     = EmotionDetector.emotion_labels.
Proof.
  split; reflexivity.
Qed.

(** What [predict_emotion] returns on seven probabilities. *)
Lemma predict_emotion_seven (predictions : list float) (g : rng) :
  length predictions = 7%nat ->
  exists r label conf,
    first_maximum predictions r conf
    /\ nth_error EmotionDetector.emotion_labels r = Some label
    /\ EmotionDetector.predict_emotion predictions g
       = Ok ({| EmotionDetector.Prediction.dominant_emotion := label;
                EmotionDetector.Prediction.confidence := conf;
                EmotionDetector.Prediction.all_emotions :=
                  sorted_desc EmotionDetector.Prediction.probability
                    (labelled predictions) |}, g).
Proof.
  intros Hl.
  destruct predictions as [| p0 [| p1 [| p2 [| p3 [| p4 [| p5 [| p6 [| p7 t]]]]]]]];
    try discriminate Hl.
  destruct (argmax_first_maximum p0 [p1; p2; p3; p4; p5; p6]) as (v & Hfm).
  remember (argmax_from 0 p0 1 [p1; p2; p3; p4; p5; p6]) as r eqn:Er.
  assert (Hr : (r < 7)%nat).
  { destruct Hfm as (Hn & _).
    change 7%nat with (length [p0; p1; p2; p3; p4; p5; p6]).
    apply nth_error_Some. congruence. }
  destruct (nth_error EmotionDetector.emotion_labels r) as [label |] eqn:El.
  2:{ apply nth_error_None in El. simpl in El. lia. }
  exists r, label, v. split; [exact Hfm |]. split; [exact El |].
  unfold EmotionDetector.predict_emotion, argmax, bind, ret, getindex.
  rewrite <- Er, El. destruct Hfm as (Hn & _). rewrite Hn. reflexivity.
Qed.

(** X18. On the seven probabilities of the network, [predict_emotion] returns
    normally: the confidence is the largest probability, and the dominant
    emotion is the detector's label at the first position that holds it. *)
Theorem X18_prediction_reports_the_first_maximum
    (predictions : list float) (g : rng) :
  length predictions = 7%nat ->
  exists r result,
    EmotionDetector.predict_emotion predictions g = Ok (result, g)
    /\ first_maximum predictions r
         (EmotionDetector.Prediction.confidence result)
    /\ nth_error EmotionDetector.emotion_labels r
       = Some (EmotionDetector.Prediction.dominant_emotion result).
Proof.
  intros Hl.
  destruct (predict_emotion_seven predictions g Hl)
    as (r & label & conf & Hfm & El & E).
  exists r. eexists. split; [exact E |]. split; assumption.
Qed.

(** Two labels share the top probability: the earlier one wins. *)
Lemma X18_prediction_reports_the_first_maximum_witness :
  length [0.1; 0.05; 0.3; 0.3; 0.05; 0.1; 0.1]%Q = 7%nat
  /\ exists r result,
       EmotionDetector.predict_emotion
         [0.1; 0.05; 0.3; 0.3; 0.05; 0.1; 0.1]%Q []
       = Ok (result, [])
       /\ nth_error EmotionDetector.emotion_labels r
          = Some (EmotionDetector.Prediction.dominant_emotion result).
Proof.
  split; [reflexivity |].
  destruct (X18_prediction_reports_the_first_maximum
              [0.1; 0.05; 0.3; 0.3; 0.05; 0.1; 0.1]%Q [] eq_refl)
    as (r & result & E & _ & El).
  exists r, result. split; [exact E | exact El].
Defined.

(** X19. On seven probabilities, the list of all emotions is a rearrangement
    of the seven labels with their probabilities, in descending order of
    probability, and its first entry is the dominant emotion with the
    confidence, ties included. *)
Theorem X19_all_emotions_are_sorted
    (predictions : list float) (g : rng) :
  length predictions = 7%nat ->
  exists result,
    EmotionDetector.predict_emotion predictions g = Ok (result, g)
    /\ Permutation (EmotionDetector.Prediction.all_emotions result)
                   (labelled predictions)
    /\ descending (EmotionDetector.Prediction.all_emotions result)
    /\ hd_error (EmotionDetector.Prediction.all_emotions result)
       = Some (EmotionDetector.Prediction.mk_emotion_probability
                 (EmotionDetector.Prediction.dominant_emotion result)
                 (EmotionDetector.Prediction.confidence result)).
Proof.
  intros Hl.
  destruct (predict_emotion_seven predictions g Hl)
    as (r & label & conf & Hfm & El & E).
  eexists. split; [exact E |]. simpl.
  split; [apply sorted_desc_Permutation |].
  split; [apply sorted_desc_sorted |].
  destruct predictions as [| p0 [| p1 [| p2 [| p3 [| p4 [| p5 [| p6 [| p7 t]]]]]]]];
    try discriminate Hl.
  destruct (sorted_desc_head EmotionDetector.Prediction.probability
              (labelled [p0; p1; p2; p3; p4; p5; p6]))
    as (r' & h & Hh & Hn & Hfm'); [discriminate |].
  rewrite (proj1 (labelled_seven p0 p1 p2 p3 p4 p5 p6)) in Hfm'.
  pose proof (first_maximum_unique _ _ _ _ _ Hfm' Hfm) as ->.
  rewrite Hh. f_equal.
  destruct Hfm as (Hv & _).
  do 7 (destruct r as [| r];
        [simpl in Hn, Hv, El; congruence |]).
  destruct r; discriminate Hn.
Qed.

(** The same seven probabilities: the first entry is the dominant emotion. *)
Lemma X19_all_emotions_are_sorted_witness :
  length [0.1; 0.05; 0.3; 0.3; 0.05; 0.1; 0.1]%Q = 7%nat
  /\ exists result,
       EmotionDetector.predict_emotion
         [0.1; 0.05; 0.3; 0.3; 0.05; 0.1; 0.1]%Q []
       = Ok (result, [])
       /\ descending (EmotionDetector.Prediction.all_emotions result).
Proof.
  split; [reflexivity |].
  destruct (X19_all_emotions_are_sorted
              [0.1; 0.05; 0.3; 0.3; 0.05; 0.1; 0.1]%Q [] eq_refl)
    as (result & E & _ & Hd & _).
  exists result. split; [exact E | exact Hd].
Defined.

Ltac after_argmax x t :=
  let v := fresh "v" in
  let Hfm := fresh "Hfm" in
  let r := fresh "r" in
  let Er := fresh "Er" in
  let El := fresh "El" in
  let Hn := fresh "Hn" in
  destruct (argmax_first_maximum x t) as (v & Hfm);
  remember (argmax_from 0 x 1 t) as r eqn:Er;
  destruct Hfm as (Hn & _);
  assert (Hr : (r < 7)%nat)
    by (assert (Hlen : (r < length (x :: t))%nat)
          by (apply nth_error_Some; congruence);
        simpl in Hlen; lia);
  destruct (nth_error EmotionDetector.emotion_labels r) as [label |] eqn:El;
  [| apply nth_error_None in El; simpl in El; lia];
  unfold EmotionDetector.predict_emotion, argmax, bind, ret, getindex;
  rewrite <- Er, El, Hn; reflexivity.

(** X20. With other than seven probabilities the prediction fails: with
    [ValueError] on none at all, with [IndexError] on one to six of them. *)
Theorem X20_prediction_fails_on_short_output (predictions : list float) :
  (predictions = [] ->
   raises (EmotionDetector.predict_emotion predictions) ValueError)
  /\ ((0 < length predictions < 7)%nat ->
      raises (EmotionDetector.predict_emotion predictions) IndexError).
Proof.
  split.
  - intros -> g. reflexivity.
  - intros Hl g.
    destruct predictions as [| p0 [| p1 [| p2 [| p3 [| p4 [| p5 [| p6 t]]]]]]];
      simpl in Hl; try lia.
    + after_argmax p0 (@nil float).
    + after_argmax p0 [p1].
    + after_argmax p0 [p1; p2].
    + after_argmax p0 [p1; p2; p3].
    + after_argmax p0 [p1; p2; p3; p4].
    + after_argmax p0 [p1; p2; p3; p4; p5].
Qed.

(** Three probabilities only. *)
Lemma X20_prediction_fails_on_short_output_witness :
  (0 < length [0.2; 0.5; 0.3]%Q < 7)%nat
  /\ EmotionDetector.predict_emotion [0.2; 0.5; 0.3]%Q [] = Raise IndexError.
Proof.
  assert (H : (0 < length [0.2; 0.5; 0.3]%Q < 7)%nat) by (simpl; lia).
  split; [exact H |].
  exact (proj2 (X20_prediction_fails_on_short_output [0.2; 0.5; 0.3]%Q) H []).
Defined.

(** ** [FacialEmotionDetector.analyze_image] *)

Lemma bind_returned {A B} (m : M A) (f : A -> M B) (g g' : rng) (a : A) :
  m g = Ok (a, g') -> bind m f g = f a g'.
Proof.
  intros E. unfold bind. now rewrite E.
Qed.

Lemma mapM_keeps_source {A B} (f : A -> M B) (P : A -> B -> Prop)
    (xs : list A) (g : rng) :
  (forall x, In x xs -> exists y, f x g = Ok (y, g) /\ P x y) ->
  exists ys, mapM f xs g = Ok (ys, g) /\ Forall2 P xs ys.
Proof.
  induction xs as [| x t IH]; intros H; simpl.
  - exists []. split; [reflexivity | constructor].
  - destruct (H x (or_introl eq_refl)) as (y & Ey & Py).
    destruct IH as (ys & Eys & Pys); [intros z Hz; apply H; now right |].
    exists (y :: ys). unfold bind. rewrite Ey, Eys.
    split; [reflexivity | now constructor].
Qed.

(** X21. When the network gives seven probabilities for every detected box,
    [analyze_image] returns normally with one result per box, in order, and a
    face count equal to their number; the combined insights built on such an
    analysis therefore never fail on the face list: with a text emotion they
    are present exactly when a face was detected. *)
Theorem X21_image_analysis_counts_its_faces
    (faces : list (EmotionDetector.Analysis.bbox * list float))
    (text : Main.text_analysis) (emotion : string) (g : rng) :
  (forall face, In face faces -> length (snd face) = 7%nat) ->
  EmotionData.dominant_emotion (Main.emotion_analysis text) = Some emotion ->
  exists result insights,
    EmotionDetector.analyze_image faces g = Ok (result, g)
    /\ EmotionDetector.Analysis.faces_detected result = length faces
    /\ length (EmotionDetector.Analysis.faces result) = length faces
    /\ map EmotionDetector.Analysis.box (EmotionDetector.Analysis.faces result)
       = map fst faces
    /\ Main.combined_insights_step
         (Some text) (Some (Main.image_view result)) g
       = Ok (insights, g)
    /\ (insights = None <-> faces = []).
Proof.
  intros H7 Hd.
  destruct (mapM_keeps_source
              (fun face =>
                 emotion_data <- EmotionDetector.predict_emotion (snd face) ;;
                 ret {| EmotionDetector.Analysis.box := fst face;
                        EmotionDetector.Analysis.emotion := emotion_data |})
              (fun face r => EmotionDetector.Analysis.box r = fst face)
              faces g) as (results & E & F).
  { intros face Hin.
    destruct (predict_emotion_seven (snd face) g (H7 face Hin))
      as (r & label & conf & _ & _ & Ep).
    eexists. unfold bind. rewrite Ep. split; reflexivity. }
  assert (Hlen : length results = length faces).
  { symmetry. eapply Forall2_length. exact F. }
  assert (Hbox : map EmotionDetector.Analysis.box results = map fst faces).
  { clear - F. induction F as [| a b l l' Hab _ IH]; simpl; [reflexivity |].
    now rewrite Hab, IH. }
  exists {| EmotionDetector.Analysis.faces_detected := length faces;
            EmotionDetector.Analysis.faces := results |}.
  assert (Ea : EmotionDetector.analyze_image faces g
               = Ok ({| EmotionDetector.Analysis.faces_detected := length faces;
                        EmotionDetector.Analysis.faces := results |}, g)).
  { unfold EmotionDetector.analyze_image.
    rewrite (bind_returned _ _ _ _ _ E). reflexivity. }
  destruct faces as [| face faces'].
  - exists None. rewrite Ea. simpl.
    repeat split; try assumption; try reflexivity.
  - destruct results as [| first others]; [discriminate Hlen |].
    exists (Some (Main.insights_of
                    (EmotionDetector.Prediction.dominant_emotion
                       (EmotionDetector.Analysis.emotion first))
                    emotion)).
    rewrite Ea.
    split; [reflexivity |]. split; [reflexivity |].
    split; [exact Hlen |]. split; [exact Hbox |]. split.
    + unfold Main.combined_insights_step. simpl. rewrite Hd. reflexivity.
    + split; discriminate.
Qed.

(** One box with seven probabilities, against the text emotion joy. *)
Lemma X21_image_analysis_counts_its_faces_witness :
  (forall face,
     In face [ (EmotionDetector.Analysis.mk_bbox 10 20 48 48,
                [0.0; 0.0; 0.1; 0.7; 0.1; 0.1; 0.0]%Q) ] ->
     length (snd face) = 7%nat)
  /\ exists result insights,
       EmotionDetector.analyze_image
         [ (EmotionDetector.Analysis.mk_bbox 10 20 48 48,
            [0.0; 0.0; 0.1; 0.7; 0.1; 0.1; 0.0]%Q) ] []
       = Ok (result, [])
       /\ EmotionDetector.Analysis.faces_detected result = 1%nat
       /\ Main.combined_insights_step
            (Some (Main.mk_text_analysis
                     (mk_emotion_data (Some "joy") None None) no_stress))
            (Some (Main.image_view result)) []
          = Ok (insights, []).
Proof.
  assert (H : forall face,
             In face [ (EmotionDetector.Analysis.mk_bbox 10 20 48 48,
                        [0.0; 0.0; 0.1; 0.7; 0.1; 0.1; 0.0]%Q) ] ->
             length (snd face) = 7%nat).
  { intros face [<- | []]. reflexivity. }
  split; [exact H |].
  destruct (X21_image_analysis_counts_its_faces
              _ (Main.mk_text_analysis
                   (mk_emotion_data (Some "joy") None None) no_stress)
              "joy" [] H eq_refl)
    as (result & insights & E & Hc & _ & _ & Ei & _).
  exists result, insights. split; [exact E |]. split; [exact Hc | exact Ei].
Defined.

(** ** backend: recommendations and wellness suggestions *)

Lemma recommendation_entries_listed :
  Forall (fun recs => recs <> []
                      /\ Forall (fun r => BackendRecommend.Item.difficulty r = "easy"
                                          \/ BackendRecommend.Item.difficulty r
                                             = "medium") recs)
         (get_default BackendRecommend.RECOMMENDATION_DB "neutral" []
          :: map snd BackendRecommend.RECOMMENDATION_DB).
Proof.
  repeat (apply Forall_cons;
          [split; [discriminate |];
           repeat (apply Forall_cons; [simpl; tauto |]); apply Forall_nil |]).
  apply Forall_nil.
Qed.

(** X22. For every emotion label, known to the table or not, and every
    intensity, the recommendation service returns normally a non-empty list
    holding the items of the label's entry (the neutral entry for an unknown
    label), in order and with their identifiers, kinds, titles and
    descriptions; below intensity 0.8 the items are returned as they are
    stored, and from 0.8 on every item has difficulty easy. *)
Theorem X22_recommendations_soften_at_high_intensity
    (user_id emotion : string) (intensity : float) :
  let entry :=
    get_default BackendRecommend.RECOMMENDATION_DB (lower emotion)
      (get_default BackendRecommend.RECOMMENDATION_DB "neutral" []) in
  succeeds
    (BackendRecommend.generate_recommendations user_id emotion intensity)
    (fun recs =>
       recs <> []
       /\ map BackendRecommend.Item.id recs
          = map BackendRecommend.Item.id entry
       /\ map BackendRecommend.Item.type recs
          = map BackendRecommend.Item.type entry
       /\ map BackendRecommend.Item.title recs
          = map BackendRecommend.Item.title entry
       /\ map BackendRecommend.Item.description recs
          = map BackendRecommend.Item.description entry
       /\ ((intensity < 0.8)%Q -> recs = entry)
       /\ ((0.8 <= intensity)%Q ->
           Forall (fun r => BackendRecommend.Item.difficulty r = "easy") recs)).
Proof.
  intros entry.
  unfold BackendRecommend.generate_recommendations.
  eapply succeeds_bind.
  { apply (succeeds_getitem _ _
             (get_default BackendRecommend.RECOMMENDATION_DB "neutral" [])).
    reflexivity. }
  intros ? <-. apply succeeds_ret. fold entry.
  assert (He : entry <> []
               /\ Forall (fun r => BackendRecommend.Item.difficulty r = "easy"
                                   \/ BackendRecommend.Item.difficulty r
                                      = "medium") entry).
  { pose proof recommendation_entries_listed as F.
    rewrite Forall_forall in F. apply F. unfold entry.
    match goal with
    | |- In (get_default ?d ?k ?v) _ =>
        destruct (get_default_cases d k v) as [-> | Hin]; [now left | now right]
    end. }
  destruct He as (Hne & Hd).
  assert (Hfields : forall r,
             BackendRecommend.Item.id (BackendRecommend.adjusted intensity r)
             = BackendRecommend.Item.id r
             /\ BackendRecommend.Item.type (BackendRecommend.adjusted intensity r)
                = BackendRecommend.Item.type r
             /\ BackendRecommend.Item.title
                  (BackendRecommend.adjusted intensity r)
                = BackendRecommend.Item.title r
             /\ BackendRecommend.Item.description
                  (BackendRecommend.adjusted intensity r)
                = BackendRecommend.Item.description r).
  { intros r. unfold BackendRecommend.adjusted.
    destruct (ge intensity 0.8);
      [destruct (String.eqb (BackendRecommend.Item.difficulty r) "medium") |];
      repeat split. }
  split; [destruct entry; [congruence | discriminate] |].
  rewrite !map_map.
  split; [apply map_ext; intros r; apply Hfields |].
  split; [apply map_ext; intros r; apply Hfields |].
  split; [apply map_ext; intros r; apply Hfields |].
  split; [apply map_ext; intros r; apply Hfields |].
  split.
  - intros Hlt. rewrite <- (map_id entry) at 2. apply map_ext. intros r.
    unfold BackendRecommend.adjusted.
    destruct (ge_spec intensity 0.8); [lra | reflexivity].
  - intros Hge. rewrite Forall_forall in Hd |- *. intros r Hr.
    apply in_map_iff in Hr. destruct Hr as (r0 & <- & Hr0).
    unfold BackendRecommend.adjusted.
    destruct (ge_spec intensity 0.8); [| lra].
    destruct (String.eqb_spec (BackendRecommend.Item.difficulty r0) "medium")
      as [E | N]; [reflexivity |].
    destruct (Hd r0 Hr0); congruence.
Qed.

(** An angry reading at intensity 0.9: the stored lesson, made easy. *)
Lemma X22_recommendations_soften_at_high_intensity_witness :
  (0.8 <= 0.9)%Q
  /\ exists recs,
       BackendRecommend.generate_recommendations "u1" "Angry" 0.9 []
       = Ok (recs, [])
       /\ map BackendRecommend.Item.id recs = [ "r5" ]
       /\ Forall (fun r => BackendRecommend.Item.difficulty r = "easy") recs.
Proof.
  assert (H : (0.8 <= 0.9)%Q) by discriminate.
  split; [exact H |].
  destruct (X22_recommendations_soften_at_high_intensity "u1" "Angry" 0.9 [])
    as (recs & g' & E & _ & Hid & _ & _ & _ & _ & Heasy).
  assert (Eg : g' = []).
  { vm_compute in E. congruence. }
  subst g'. exists recs. split; [exact E |]. split; [exact Hid | exact (Heasy H)].
Defined.

(** X23. For every emotion label and intensity the wellness router returns
    normally the suggestions stored under the lower-cased label, or the
    neutral ones for a label it does not know; the list is never empty and
    every suggestion lasts between 2 and 8 minutes. *)
Theorem X23_wellness_suggestions_are_never_empty
    (detected_emotion : string) (intensity : float) :
  succeeds (BackendWellness.get_wellness detected_emotion intensity)
    (fun suggestions =>
       suggestions
       = get_default BackendWellness.EMOTION_SUGGESTIONS
           (lower detected_emotion)
           (get_default BackendWellness.EMOTION_SUGGESTIONS "neutral" [])
       /\ suggestions <> []
       /\ Forall (fun s =>
                    (2 <= BackendWellness.Suggestion.duration_minutes s <= 8)%Z)
                 suggestions).
Proof.
  unfold BackendWellness.get_wellness.
  eapply succeeds_bind.
  { apply (succeeds_getitem _ _
             (get_default BackendWellness.EMOTION_SUGGESTIONS "neutral" [])).
    reflexivity. }
  intros ? <-. apply succeeds_ret.
  split; [reflexivity |].
  unfold get_default. simpl.
  repeat match goal with
         | |- context [String.eqb ?a ?b] => destruct (String.eqb a b)
         end;
    (split; [discriminate |]);
    repeat (apply Forall_cons; [simpl; lia |]); apply Forall_nil.
Qed.

(** ** Whitespace, letter case and substrings *)

Lemma is_space_lower_char (c : ascii) : is_space (lower_char c) = is_space c.
Proof.
  destruct c as [[] [] [] [] [] [] [] []]; reflexivity.
Qed.

Lemma lower_lstrip (s : string) : lower (lstrip s) = lstrip (lower s).
Proof.
  induction s as [| c t IH]; simpl; [reflexivity |].
  rewrite is_space_lower_char. destruct (is_space c); [exact IH | reflexivity].
Qed.

Lemma lower_rstrip (s : string) : lower (rstrip s) = rstrip (lower s).
Proof.
  induction s as [| c t IH]; simpl; [reflexivity |].
  rewrite <- IH, is_space_lower_char.
  destruct (rstrip t); simpl; [destruct (is_space c) |]; reflexivity.
Qed.

Lemma lower_strip (s : string) : lower (strip s) = strip (lower s).
Proof.
  unfold strip. now rewrite lower_rstrip, lower_lstrip.
Qed.

Lemma prefix_not_space (k : ascii) (kw : string) (c : ascii) (t : string) :
  is_space k = false -> is_space c = true ->
  String.prefix (String k kw) (String c t) = false.
Proof.
  intros Hk Hc. simpl. destruct (ascii_dec k c) as [-> | _]; [congruence |].
  reflexivity.
Qed.

Lemma contains_lstrip (k : ascii) (kw : string) (s : string) :
  is_space k = false ->
  contains (String k kw) (lstrip s) = contains (String k kw) s.
Proof.
  intros Hk. induction s as [| c t IH]; [reflexivity |].
  simpl lstrip. destruct (is_space c) eqn:Hc; [| reflexivity].
  rewrite IH. symmetry.
  change (contains (String k kw) (String c t))
    with (String.prefix (String k kw) (String c t)
          || contains (String k kw) t).
  now rewrite (prefix_not_space k kw c t Hk Hc).
Qed.

Lemma prefix_rstrip (s : string) : forall kw,
  all_chars (fun c => negb (is_space c)) kw = true ->
  String.prefix kw (rstrip s) = String.prefix kw s.
Proof.
  induction s as [| c t IH]; intros kw Hkw; [reflexivity |].
  destruct kw as [| k kw']; [destruct (rstrip (String c t)); reflexivity |].
  simpl in Hkw. apply andb_true_iff in Hkw. destruct Hkw as (Hk & Hkw').
  apply negb_true_iff in Hk.
  specialize (IH kw' Hkw').
  simpl rstrip. destruct (rstrip t) as [| r0 r] eqn:Er.
  - destruct (is_space c) eqn:Hc.
    + now rewrite (prefix_not_space k kw' c t Hk Hc).
    + simpl. destruct (ascii_dec k c); [exact IH | reflexivity].
  - simpl. destruct (ascii_dec k c); [exact IH | reflexivity].
Qed.

Lemma contains_empty_hay (k : ascii) (kw : string) :
  contains (String k kw) "" = false.
Proof.
  reflexivity.
Qed.

Lemma contains_rstrip (k : ascii) (kw : string) (s : string) :
  all_chars (fun c => negb (is_space c)) (String k kw) = true ->
  contains (String k kw) (rstrip s) = contains (String k kw) s.
Proof.
  intros Hkw. induction s as [| c t IH]; [reflexivity |].
  change (contains (String k kw) (String c t))
    with (String.prefix (String k kw) (String c t)
          || contains (String k kw) t).
  rewrite <- (prefix_rstrip (String c t) _ Hkw), <- IH.
  simpl rstrip. destruct (rstrip t) as [| r0 r] eqn:Er.
  - destruct (is_space c); [reflexivity |].
    change (contains (String k kw) (String c ""))
      with (String.prefix (String k kw) (String c "")
            || contains (String k kw) "").
    reflexivity.
  - reflexivity.
Qed.

Lemma contains_strip (k : ascii) (kw : string) (s : string) :
  all_chars (fun c => negb (is_space c)) (String k kw) = true ->
  contains (String k kw) (strip s) = contains (String k kw) s.
Proof.
  intros Hkw. unfold strip.
  rewrite (contains_rstrip _ _ _ Hkw). apply contains_lstrip.
  simpl in Hkw. apply andb_true_iff in Hkw.
  now apply negb_true_iff, (proj1 Hkw).
Qed.

Lemma prefix_contains (kw s : string) :
  String.prefix kw s = true -> contains kw s = true.
Proof.
  intros H. destruct s as [| c t].
  - change (contains kw "") with (String.prefix kw "" || false).
    now rewrite H.
  - change (contains kw (String c t))
      with (String.prefix kw (String c t) || contains kw t).
    now rewrite H.
Qed.

Lemma contains_cons_hay (kw : string) (c : ascii) (t : string) :
  contains kw t = true -> contains kw (String c t) = true.
Proof.
  intros H.
  change (contains kw (String c t))
    with (String.prefix kw (String c t) || contains kw t).
  rewrite H. apply orb_true_r.
Qed.

(** A text that holds a word holds the word without its first letter. *)
Lemma contains_tail (c : ascii) (kw s : string) :
  contains (String c kw) s = true -> contains kw s = true.
Proof.
  induction s as [| d t IH]; intros H; [discriminate H |].
  change (contains (String c kw) (String d t))
    with (String.prefix (String c kw) (String d t)
          || contains (String c kw) t) in H.
  apply orb_true_iff in H. destruct H as [H | H].
  - simpl in H. destruct (ascii_dec c d); [| discriminate].
    apply contains_cons_hay. now apply prefix_contains.
  - apply contains_cons_hay. now apply IH.
Qed.

(** ** backend: the keyword sentiment service *)

Lemma lowered_contains (k : ascii) (kw : string) (text : string) :
  all_chars (fun c => negb (is_space c)) (String k kw) = true ->
  contains (String k kw) (lower (strip text))
  = contains (String k kw) (lower text).
Proof.
  intros H. rewrite lower_strip. now apply contains_strip.
Qed.

(** X24. The keyword service answers one of four fixed pairs, each label being
    a key of the recommendation table and of the wellness table.  The keywords
    are looked for anywhere in the lower-cased text, the happy ones first: the
    label is happy exactly when the text holds happy, great, good or awesome,
    so a text that holds unhappy is labelled happy and the keyword unhappy of
    the sad list never decides. *)
Theorem X24_keyword_sentiment_prefers_happy (text : string) :
  In (BackendSentiment.analyze_text_sentiment text)
     [ ("happy", 0.92); ("sad", 0.88); ("angry", 0.86); ("neutral", 0.6) ]
  /\ (fst (BackendSentiment.analyze_text_sentiment text) = "happy"
      <-> any_in [ "happy"; "great"; "good"; "awesome" ] (lower text) = true)
  /\ (contains "unhappy" (lower text) = true ->
      BackendSentiment.analyze_text_sentiment text = ("happy", 0.92))
  /\ mem BackendRecommend.RECOMMENDATION_DB
         (fst (BackendSentiment.analyze_text_sentiment text)) = true
  /\ mem BackendWellness.EMOTION_SUGGESTIONS
         (fst (BackendSentiment.analyze_text_sentiment text)) = true.
Proof.
  assert (Hh : any_in [ "happy"; "great"; "good"; "awesome" ]
                 (lower (strip text))
               = any_in [ "happy"; "great"; "good"; "awesome" ] (lower text)).
  { unfold any_in, existsb. now rewrite !lowered_contains by reflexivity. }
  unfold BackendSentiment.analyze_text_sentiment. rewrite Hh.
  destruct (any_in [ "happy"; "great"; "good"; "awesome" ] (lower text))
    eqn:Eh.
  - repeat split; simpl; tauto.
  - assert (Hu : contains "unhappy" (lower text) = false).
    { destruct (contains "unhappy" (lower text)) eqn:Eu; [| reflexivity].
      apply contains_tail, contains_tail in Eu.
      unfold any_in, existsb in Eh. rewrite Eu in Eh. discriminate Eh. }
    destruct (any_in [ "sad"; "unhappy"; "down" ] (lower (strip text)));
      [| destruct (any_in [ "angry"; "mad"; "frustrat" ] (lower (strip text)))];
      (split; [simpl; tauto |]);
      (split; [split; intros H; discriminate H |]);
      (split; [intros H; congruence |]);
      split; reflexivity.
Qed.

(** The text 'So UNHAPPY today', padded with spaces. *)
Lemma X24_keyword_sentiment_prefers_happy_witness :
  contains "unhappy" (lower "  So UNHAPPY today ") = true
  /\ BackendSentiment.analyze_text_sentiment "  So UNHAPPY today "
     = ("happy", 0.92).
Proof.
  assert (H : contains "unhappy" (lower "  So UNHAPPY today ") = true)
    by reflexivity.
  split; [exact H |].
  exact (proj1 (proj2 (proj2
           (X24_keyword_sentiment_prefers_happy "  So UNHAPPY today "))) H).
Defined.

(** ** backend: [clean_text] *)

Lemma kept_lower_char (c : ascii) :
  Preprocess.kept c = true -> lower_char c = c.
Proof.
  destruct c as [[] [] [] [] [] [] [] []]; intros H;
    try reflexivity; discriminate H.
Qed.

Lemma remove_unkept_all_kept (s : string) :
  all_chars Preprocess.kept (Preprocess.remove_unkept s) = true.
Proof.
  induction s as [| c t IH]; simpl; [reflexivity |].
  destruct (Preprocess.kept c) eqn:E; [simpl; now rewrite E |exact IH].
Qed.

Lemma all_kept_lower (s : string) :
  all_chars Preprocess.kept s = true -> lower s = s.
Proof.
  induction s as [| c t IH]; simpl; [reflexivity |].
  intros H. apply andb_true_iff in H. destruct H as (Hc & Ht).
  now rewrite (kept_lower_char c Hc), (IH Ht).
Qed.

Lemma all_kept_remove_unkept (s : string) :
  all_chars Preprocess.kept s = true -> Preprocess.remove_unkept s = s.
Proof.
  induction s as [| c t IH]; simpl; [reflexivity |].
  intros H. apply andb_true_iff in H. destruct H as (Hc & Ht).
  now rewrite Hc, (IH Ht).
Qed.

Lemma all_chars_lstrip (test : ascii -> bool) (s : string) :
  all_chars test s = true -> all_chars test (lstrip s) = true.
Proof.
  induction s as [| c t IH]; simpl; [reflexivity |].
  intros H. destruct (is_space c); [| exact H].
  apply andb_true_iff in H. now apply IH.
Qed.

Lemma all_chars_rstrip (test : ascii -> bool) (s : string) :
  all_chars test s = true -> all_chars test (rstrip s) = true.
Proof.
  induction s as [| c t IH]; simpl; [reflexivity |].
  intros H. apply andb_true_iff in H. destruct H as (Hc & Ht).
  specialize (IH Ht).
  destruct (rstrip t) as [| r0 r].
  - destruct (is_space c); simpl; [reflexivity | now rewrite Hc].
  - change (all_chars test (String c (String r0 r)))
      with (test c && all_chars test (String r0 r)).
    now rewrite Hc, IH.
Qed.

Lemma all_chars_strip (test : ascii -> bool) (s : string) :
  all_chars test s = true -> all_chars test (strip s) = true.
Proof.
  intros H. unfold strip. now apply all_chars_rstrip, all_chars_lstrip.
Qed.

Lemma length_lower (s : string) : String.length (lower s) = String.length s.
Proof.
  induction s as [| c t IH]; simpl; [reflexivity | now rewrite IH].
Qed.

Lemma length_lstrip (s : string) :
  (String.length (lstrip s) <= String.length s)%nat.
Proof.
  induction s as [| c t IH]; simpl; [lia |].
  destruct (is_space c); simpl; lia.
Qed.

Lemma length_rstrip (s : string) :
  (String.length (rstrip s) <= String.length s)%nat.
Proof.
  induction s as [| c t IH]; simpl; [lia |].
  destruct (rstrip t) as [| r0 r].
  - destruct (is_space c); simpl; lia.
  - simpl in *. lia.
Qed.

Lemma length_remove_unkept (s : string) :
  (String.length (Preprocess.remove_unkept s) <= String.length s)%nat.
Proof.
  induction s as [| c t IH]; simpl; [lia |].
  destruct (Preprocess.kept c); simpl; lia.
Qed.

(** X25. The cleaned text is never longer than the text, holds only the
    letters a to z, digits and whitespace, and so is unchanged by
    lower-casing and by a second removal of characters; but it may still
    begin or end with whitespace, and cleaning it again does nothing more
    than strip it. *)
Theorem X25_clean_text_keeps_plain_characters (text : string) :
  all_chars Preprocess.kept (Preprocess.clean_text text) = true
  /\ (String.length (Preprocess.clean_text text) <= String.length text)%nat
  /\ lower (Preprocess.clean_text text) = Preprocess.clean_text text
  /\ Preprocess.remove_unkept (Preprocess.clean_text text)
     = Preprocess.clean_text text
  /\ Preprocess.clean_text (Preprocess.clean_text text)
     = strip (Preprocess.clean_text text)
  /\ Preprocess.clean_text "ok !" = "ok ".
Proof.
  pose proof (remove_unkept_all_kept (strip (lower text))) as K.
  fold (Preprocess.clean_text text) in K.
  split; [exact K |]. split.
  { unfold Preprocess.clean_text, strip.
    pose proof (length_remove_unkept (rstrip (lstrip (lower text)))).
    pose proof (length_rstrip (lstrip (lower text))).
    pose proof (length_lstrip (lower text)).
    pose proof (length_lower text). lia. }
  split; [now apply all_kept_lower |].
  split; [now apply all_kept_remove_unkept |].
  split; [| reflexivity].
  unfold Preprocess.clean_text at 1.
  rewrite (all_kept_lower _ K).
  apply all_kept_remove_unkept. now apply all_chars_strip.
Qed.
